(** * Agent Rules Sync: the load / save core of [src/extension.ts]

    The extension keeps a list of rule files (workspace setting
    [agentRulesSync.ruleFiles]) in sync.  Two methods of [AgentRulesPanel]
    carry the logic:

    - [_saveToAllFiles] writes one content to every configured file and
      reports a result per file;
    - [_loadContent] takes the content of the first file that can be read
      and reports a status per file.

    Both talk to Node's [fs] and [path] modules and to the VS Code window.
    Node is an interface here ([NodeEnv]); the methods are written against
    it in a small state-and-exception monad whose state records the disk,
    the [fs] calls made, the notifications shown and the messages posted to
    the webview.  [MemFs] at the end of the definitions is an in-memory
    implementation of the interface, with POSIX paths and file permissions. *)

From stdpp Require Import base option list strings gmap pretty.

Local Open Scope string_scope.
Local Open Scope list_scope.

(** ** Values of the source *)

(** What a [catch (error)] clause may receive.  The handler of
    [_saveToAllFiles] tests [error instanceof Error]. *)
Inductive thrown : Type :=
  | ErrorObj (message : string)
  | NotAnError.

(** [fs.Stats], of which the source reads [mtime] only; a [Date] is its
    number of milliseconds since the epoch. *)
Definition Date : Type := Z.

Bind Scope Z_scope with Date.

Record Stats : Type := { mtime : Date }.

(** [{ file: string; success: boolean; error?: string }] *)
Module SaveResult.
Record t : Type := mk { file : string; success : bool; error : option string }.
End SaveResult.

(** [{ file: string; exists: boolean; lastModified?: string }] *)
Module FileStatus.
Record t : Type := mk { file : string; exists_ : bool; lastModified : option string }.
End FileStatus.

(** Messages posted to the webview with [this._panel.webview.postMessage]. *)
Inductive message : Type :=
  | saveResults (results : list SaveResult.t)
  | loadContent (content : string) (files : list FileStatus.t).

(** [vscode.window.showInformationMessage] and [showErrorMessage]. *)
Inductive notification : Type :=
  | InformationMessage (text : string)
  | ErrorMessage (text : string).

(** The calls into [fs], with their arguments, in the order they are made. *)
Inductive call : Type :=
  | ExistsSync (p : string)
  | StatSync (p : string)
  | ReadFileSync (p : string) (encoding : string)
  | MkdirSync (p : string) (recursive : bool)
  | WriteFileSync (p : string) (data : string) (encoding : string).

(** ** Node as an interface

    [FS] is the state of the disk.  [existsSync] never throws.  [mkdirSync]
    is the [{ recursive: true }] form; it and [writeFileSync] return the new
    disk also when they throw.  [toISOString] throws on an invalid date,
    which [stat] gives for a time out of the range of [Date].
    [fs_fileContent] is not called by the
    source: it is what the regular file at a path holds, whoever may or may
    not read it, and is how the theorems speak of the disk. *)
Class NodeEnv (FS : Type) : Type := {
  path_join : string → string → string;
  path_dirname : string → string;
  date_toISOString : Date → thrown + string;
  fs_existsSync : FS → string → bool;
  fs_statSync : FS → string → thrown + Stats;
  fs_readFileSync : FS → string → thrown + string;
  fs_mkdirSync : FS → string → FS * option thrown;
  fs_writeFileSync : FS → string → string → FS * option thrown;
  fs_fileContent : FS → string → option string
}.

(** What the theorems about the disk after a save assume of [fs]: a write
    that returns has put its data in the file; writing the same data
    somewhere, or making directories, does not change a file that holds
    that data; a file that holds data exists; a read that returns gives
    what the file holds. *)
Class NodeLaws (FS : Type) `{NodeEnv FS} : Prop := {
  write_done d p data d' :
    fs_writeFileSync d p data = (d', None) → fs_fileContent d' p = Some data;
  write_keeps d q data p :
    fs_fileContent d p = Some data →
    fs_fileContent (fs_writeFileSync d q data).1 p = Some data;
  mkdir_keeps d q data p :
    fs_fileContent d p = Some data →
    fs_fileContent (fs_mkdirSync d q).1 p = Some data;
  content_exists d p data :
    fs_fileContent d p = Some data → fs_existsSync d p = true;
  read_content d p data :
    fs_readFileSync d p = inr data → fs_fileContent d p = Some data
}.

(** The modification time of a path, if [stat] gives one, prints. *)
Definition dated {FS : Type} `{NodeEnv FS} (d : FS) (p : string) : Prop :=
  ∀ stats, fs_statSync d p = inr stats → ∃ text, date_toISOString (mtime stats) = inr text.

(** What the theorems that load after a save assume of the clock: a file
    just written bears the time of the system, which is a valid date, and
    a write or a new directory leaves no path with a time that is not. *)
Class DateLaws (FS : Type) `{NodeEnv FS} : Prop := {
  write_dated d p data d' :
    fs_writeFileSync d p data = (d', None) → dated d' p;
  write_keeps_date d q data p :
    dated d p → dated (fs_writeFileSync d q data).1 p;
  mkdir_keeps_date d q p :
    dated d p → dated (fs_mkdirSync d q).1 p
}.

(** ** The world a method runs in *)

Record world (FS : Type) : Type := World {
  workspaceFolder : option string;  (* workspaceFolders?.[0].uri.fsPath *)
  ruleFiles : list string;          (* config.get('ruleFiles', []) *)
  disk : FS;
  calls : list call;
  shown : list notification;
  posted : list message
}.

Arguments World {FS}.
Arguments workspaceFolder {FS}.
Arguments ruleFiles {FS}.
Arguments disk {FS}.
Arguments calls {FS}.
Arguments shown {FS}.
Arguments posted {FS}.

(** How a statement completes: normally with a value, or by a throw. *)
Inductive completion (A : Type) : Type :=
  | Normal (a : A)
  | Throw (e : thrown).

Arguments Normal {A}.
Arguments Throw {A}.

(** What a loop body tells its loop. *)
Inductive flow (V : Type) : Type :=
  | Continue (v : V)
  | Break (v : V).

Arguments Continue {V}.
Arguments Break {V}.

Section Extension.

Context {FS : Type} `{Node : NodeEnv FS}.

Definition M (A : Type) : Type := world FS → completion A * world FS.

#[local] Instance M_ret : MRet M := λ A a w, (Normal a, w).

#[local] Instance M_bind : MBind M := λ A B k m w,
  match m w with
  | (Normal a, w') => k a w'
  | (Throw e, w') => (Throw e, w')
  end.

Definition try_catch {A : Type} (body : M A) (handler : thrown → M A) : M A :=
  λ w, match body w with
       | (Normal a, w') => (Normal a, w')
       | (Throw e, w') => handler e w'
       end.

Definition set_disk (d : FS) (w : world FS) : world FS :=
  World (workspaceFolder w) (ruleFiles w) d (calls w) (shown w) (posted w).

Definition log (c : call) (w : world FS) : world FS :=
  World (workspaceFolder w) (ruleFiles w) (disk w) (calls w ++ [c]) (shown w) (posted w).

Definition show (n : notification) (w : world FS) : world FS :=
  World (workspaceFolder w) (ruleFiles w) (disk w) (calls w) (shown w ++ [n]) (posted w).

Definition post (m : message) (w : world FS) : world FS :=
  World (workspaceFolder w) (ruleFiles w) (disk w) (calls w) (shown w) (posted w ++ [m]).

(** *** The API, as monadic operations *)

Definition of_sum {A : Type} (r : thrown + A) : completion A :=
  match r with inl e => Throw e | inr a => Normal a end.

Definition of_status (r : option thrown) : completion () :=
  match r with Some e => Throw e | None => Normal () end.

Definition existsSync (p : string) : M bool :=
  λ w, (Normal (fs_existsSync (disk w) p), log (ExistsSync p) w).

Definition statSync (p : string) : M Stats :=
  λ w, (of_sum (fs_statSync (disk w) p), log (StatSync p) w).

Definition readFileSync (p encoding : string) : M string :=
  λ w, (of_sum (fs_readFileSync (disk w) p), log (ReadFileSync p encoding) w).

Definition mkdirSync (p : string) (recursive : bool) : M () :=
  λ w, let '(d, r) := fs_mkdirSync (disk w) p in
       (of_status r, log (MkdirSync p recursive) (set_disk d w)).

Definition writeFileSync (p data encoding : string) : M () :=
  λ w, let '(d, r) := fs_writeFileSync (disk w) p data in
       (of_status r, log (WriteFileSync p data encoding) (set_disk d w)).

Definition showInformationMessage (text : string) : M () :=
  λ w, (Normal (), show (InformationMessage text) w).

Definition showErrorMessage (text : string) : M () :=
  λ w, (Normal (), show (ErrorMessage text) w).

Definition postMessage (m : message) : M () :=
  λ w, (Normal (), post m w).

(** [date.toISOString()] *)
Definition toISOString (date : Date) : M string :=
  λ w, (of_sum (date_toISOString date), w).

Definition get_ruleFiles : M (list string) := λ w, (Normal (ruleFiles w), w).

Definition get_workspaceFolder : M (option string) :=
  λ w, (Normal (workspaceFolder w), w).

(** *** Loops *)

(** [for (const x of l) { body }], the body updating the loop's variables
    [v] and saying whether it ran into [break]. *)
Fixpoint for_of {A V : Type} (l : list A) (body : A → V → M (flow V)) (v : V) : M V :=
  match l with
  | [] => mret v
  | x :: l' =>
      r ← body x v;
      match r with
      | Continue v' => for_of l' body v'
      | Break v' => mret v'
      end
  end.

(** *** Blocks that assign to local variables

    A block over the local variables [V]: what it has assigned before a
    throw stays assigned, in the handler and after it. *)
Definition block (V A : Type) : Type := V → world FS → completion A * V * world FS.

#[local] Instance block_ret (V : Type) : MRet (block V) := λ A a v w, (Normal a, v, w).

#[local] Instance block_bind (V : Type) : MBind (block V) := λ A B k m v w,
  match m v w with
  | (Normal a, v', w') => k a v' w'
  | (Throw e, v', w') => (Throw e, v', w')
  end.

(** A call of the API inside a block. *)
Definition lift {V A : Type} (m : M A) : block V A :=
  λ v w, let '(c, w') := m w in (c, v, w').

(** An assignment, or a [push] on a local array. *)
Definition assign {V : Type} (f : V → V) : block V () := λ v w, (Normal (), f v, w).

Definition try_catch_block {V A : Type} (body : block V A) (handler : thrown → block V A)
    : block V A :=
  λ v w, match body v w with
         | (Normal a, v', w') => (Normal a, v', w')
         | (Throw e, v', w') => handler e v' w'
         end.

(** The block run from the initial values of its variables; their final
    values are what the rest of the method sees. *)
Definition with_locals {V A : Type} (v : V) (b : block V A) : M V :=
  λ w, let '(c, v', w') := b v w in
       (match c with Normal _ => Normal v' | Throw e => Throw e end, w').

(** [for (const x of l) { body }] over local variables. *)
Fixpoint for_of_block {A V : Type} (l : list A) (body : A → block V (flow ()))
    : block V () :=
  match l with
  | [] => mret ()
  | x :: l' =>
      r ← body x;
      match r with
      | Continue _ => for_of_block l' body
      | Break _ => mret ()
      end
  end.

(** [for (let i = from; i < from + count; i++) { body }] *)
Fixpoint for_index {V : Type} (from count : nat) (body : nat → block V ()) : block V () :=
  match count with
  | 0 => mret ()
  | S count' => _ ← body from; for_index (S from) count' body
  end.

(** *** [_saveToAllFiles] *)

(** [error instanceof Error ? error.message : 'Unknown error'] *)
Definition error_text (error : thrown) : string :=
  match error with
  | ErrorObj message => message
  | NotAnError => "Unknown error"
  end.

(** One turn of the loop over [syncedFiles]: the [try] block and its
    handler; [results] is the array the turn pushes to. *)
Definition save_turn (base content filePath : string) (results : list SaveResult.t)
    : M (flow (list SaveResult.t)) :=
  try_catch
    (let fullPath := path_join base filePath in
     let dir := path_dirname fullPath in
     present ← existsSync dir;
     _ ← (if negb (present : bool) then mkdirSync dir true else mret ());
     _ ← writeFileSync fullPath content "utf8";
     mret (Continue (results ++ [SaveResult.mk filePath true None])))
    (λ error,
     mret (Continue (results ++ [SaveResult.mk filePath false (Some (error_text error))]))).

(** [`${f.file}: ${f.error}`]; an absent [error] prints as [undefined]. *)
Definition failed_line (f : SaveResult.t) : string :=
  SaveResult.file f +:+ ": " +:+ default "undefined" (SaveResult.error f).

(** [Array.prototype.join] *)
Fixpoint join_with (sep : string) (l : list string) : string :=
  match l with
  | [] => ""
  | [x] => x
  | x :: l' => x +:+ sep +:+ join_with sep l'
  end.

Definition newline : string := String (Ascii.ascii_of_nat 10) EmptyString.

Definition _saveToAllFiles (content : string) : M () :=
  syncedFiles ← get_ruleFiles;
  workspaceFolder ← get_workspaceFolder;
  match workspaceFolder with
  | None => showErrorMessage "No workspace folder found"
  | Some base =>
      results ← for_of syncedFiles (save_turn base content) [];
      let successful := length (filter (λ r, SaveResult.success r = true) results) in
      let failed := filter (λ r, SaveResult.success r = false) results in
      _ ← (if decide (length failed = 0)
           then showInformationMessage
                  ("Successfully saved to " +:+ pretty successful +:+ " file(s)")
           else
             let failedFiles := join_with newline (failed_line <$> failed) in
             showErrorMessage
               ("Saved to " +:+ pretty successful +:+ " file(s), failed to save "
                +:+ pretty (length failed) +:+ " file(s):" +:+ newline +:+ failedFiles));
      postMessage (saveResults results)
  end.

(** *** [_loadContent] *)

(** The variables of [_loadContent] its loops assign: [content] and the
    array [fileStatuses]. *)
Definition load_vars : Type := string * list FileStatus.t.

Definition set_content (text : string) (v : load_vars) : load_vars := (text, v.2).

Definition push_status (status : FileStatus.t) (v : load_vars) : load_vars :=
  (v.1, v.2 ++ [status]).

(** One turn of the first loop.  A file that exists has its [stat] taken
    and is read into [content]; its entry is then built, with the time
    printed, and pushed, and the loop ends.  Whatever throws on the way
    lands in the handler, which pushes the entry of a missing file and
    lets the loop go on: if that was [toISOString], [content] has been
    assigned already. *)
Definition scan_turn (base filePath : string) : block load_vars (flow ()) :=
  try_catch_block
    (let fullPath := path_join base filePath in
     present ← lift (existsSync fullPath);
     if (present : bool) then
       stats ← lift (statSync fullPath);
       text ← lift (readFileSync fullPath "utf8");
       _ ← assign (set_content text);
       lastModified ← lift (toISOString (mtime stats));
       _ ← assign (push_status (FileStatus.mk filePath true (Some lastModified)));
       mret (Break ())
     else
       _ ← assign (push_status (FileStatus.mk filePath false None));
       mret (Continue ()))
    (λ error,
     _ ← assign (push_status (FileStatus.mk filePath false None));
     mret (Continue ())).

(** One turn of the second loop, at index [i]: existence, [stat] and the
    time printed.  The loop keeps [i] below [syncedFiles.length], so
    [syncedFiles[i]] is a string; no entry is pushed here for an index
    out of range. *)
Definition status_turn (base : string) (syncedFiles : list string) (i : nat)
    : block load_vars () :=
  match syncedFiles !! i with
  | None => mret ()
  | Some filePath =>
      try_catch_block
        (let fullPath := path_join base filePath in
         present ← lift (existsSync fullPath);
         if (present : bool) then
           stats ← lift (statSync fullPath);
           lastModified ← lift (toISOString (mtime stats));
           assign (push_status (FileStatus.mk filePath true (Some lastModified)))
         else
           assign (push_status (FileStatus.mk filePath false None)))
        (λ error, assign (push_status (FileStatus.mk filePath false None)))
  end.

Definition _loadContent : M () :=
  syncedFiles ← get_ruleFiles;
  workspaceFolder ← get_workspaceFolder;
  match workspaceFolder with
  | None => postMessage (loadContent "" [])
  | Some base =>
      v ← with_locals ("", [])
            (_ ← for_of_block syncedFiles (scan_turn base);
             for_index 1 (length syncedFiles - 1) (status_turn base syncedFiles));
      postMessage (loadContent v.1 v.2)
  end.

(** *** The loops, turn by turn

    What one turn of each loop does to the disk, which calls it makes and
    what it pushes, as functions of the disk.  The theorems below first
    show that the loops above compute exactly these. *)

Definition advance (d : FS) (cs : list call) (w : world FS) : world FS :=
  World (workspaceFolder w) (ruleFiles w) d (calls w ++ cs) (shown w) (posted w).

(** The [try] block of [_saveToAllFiles] on one path: the disk it leaves,
    what it threw if it did, and its calls. *)
Definition attempt (base content filePath : string) (d : FS)
    : FS * option thrown * list call :=
  let fullPath := path_join base filePath in
  let dir := path_dirname fullPath in
  if fs_existsSync d dir then
    let '(d1, r) := fs_writeFileSync d fullPath content in
    (d1, r, [ExistsSync dir; WriteFileSync fullPath content "utf8"])
  else
    let '(d1, r) := fs_mkdirSync d dir in
    match r with
    | Some e => (d1, Some e, [ExistsSync dir; MkdirSync dir true])
    | None =>
        let '(d2, r) := fs_writeFileSync d1 fullPath content in
        (d2, r, [ExistsSync dir; MkdirSync dir true; WriteFileSync fullPath content "utf8"])
    end.

(** The entry pushed for a path, by the [try] block or by its handler. *)
Definition result_of (filePath : string) (r : option thrown) : SaveResult.t :=
  match r with
  | None => SaveResult.mk filePath true None
  | Some error => SaveResult.mk filePath false (Some (error_text error))
  end.

Fixpoint attempts (base content : string) (l : list string) (d : FS)
    : FS * list SaveResult.t * list call :=
  match l with
  | [] => (d, [], [])
  | filePath :: l' =>
      let '(d1, r, cs) := attempt base content filePath d in
      let '(d2, rs, cs') := attempts base content l' d1 in
      (d2, result_of filePath r :: rs, cs ++ cs')
  end.

(** The notification at the end of [_saveToAllFiles]. *)
Definition summary (results : list SaveResult.t) : notification :=
  let successful := length (filter (λ r, SaveResult.success r = true) results) in
  let failed := filter (λ r, SaveResult.success r = false) results in
  if decide (length failed = 0)
  then InformationMessage ("Successfully saved to " +:+ pretty successful +:+ " file(s)")
  else ErrorMessage
         ("Saved to " +:+ pretty successful +:+ " file(s), failed to save "
          +:+ pretty (length failed) +:+ " file(s):" +:+ newline
          +:+ join_with newline (failed_line <$> failed)).

(** The disk on which the turn for index [i] starts. *)
Definition disk_before (base content : string) (l : list string) (d : FS) (i : nat) : FS :=
  (attempts base content (take i l) d).1.1.

(** The first loop of [_loadContent] stops at a path that exists, whose
    [stat] returns, whose read returns and whose time prints: the time
    as printed and the content. *)
Definition winner (d : FS) (fullPath : string) : option (string * string) :=
  if fs_existsSync d fullPath then
    match fs_statSync d fullPath, fs_readFileSync d fullPath with
    | inr stats, inr content =>
        match date_toISOString (mtime stats) with
        | inr lastModified => Some (lastModified, content)
        | inl _ => None
        end
    | _, _ => None
    end
  else None.

(** What a turn of the first loop assigns to [content], if it does: the
    text of a file that exists, whose [stat] returns and whose read
    returns, whether its time prints or not. *)
Definition assigned (d : FS) (fullPath : string) : option string :=
  if fs_existsSync d fullPath then
    match fs_statSync d fullPath, fs_readFileSync d fullPath with
    | inr _, inr content => Some content
    | _, _ => None
    end
  else None.

Definition scan_calls (d : FS) (fullPath : string) : list call :=
  if fs_existsSync d fullPath then
    match fs_statSync d fullPath with
    | inr _ => [ExistsSync fullPath; StatSync fullPath; ReadFileSync fullPath "utf8"]
    | inl _ => [ExistsSync fullPath; StatSync fullPath]
    end
  else [ExistsSync fullPath].

(** The entry of a path that is not there. *)
Definition missing (filePath : string) : FileStatus.t := FileStatus.mk filePath false None.

(** The first loop: the content last assigned, if any, the entries pushed
    and the calls made. *)
Fixpoint scan (base : string) (d : FS) (l : list string)
    : option string * list FileStatus.t * list call :=
  match l with
  | [] => (None, [], [])
  | filePath :: l' =>
      let fullPath := path_join base filePath in
      match winner d fullPath with
      | Some (lastModified, content) =>
          (Some content,
           [FileStatus.mk filePath true (Some lastModified)],
           scan_calls d fullPath)
      | None =>
          let '(found, sts, cs) := scan base d l' in
          (match found with Some content => Some content | None => assigned d fullPath end,
           missing filePath :: sts, scan_calls d fullPath ++ cs)
      end
  end.

(** A turn of the second loop: the entry pushed and the calls made. *)
Definition status_of (base : string) (d : FS) (filePath : string) : FileStatus.t :=
  let fullPath := path_join base filePath in
  if fs_existsSync d fullPath then
    match fs_statSync d fullPath with
    | inr stats =>
        match date_toISOString (mtime stats) with
        | inr lastModified => FileStatus.mk filePath true (Some lastModified)
        | inl _ => FileStatus.mk filePath false None
        end
    | inl _ => FileStatus.mk filePath false None
    end
  else FileStatus.mk filePath false None.

Definition status_calls (base : string) (d : FS) (filePath : string) : list call :=
  let fullPath := path_join base filePath in
  if fs_existsSync d fullPath then [ExistsSync fullPath; StatSync fullPath]
  else [ExistsSync fullPath].

End Extension.

(** ** An in-memory Node

    Paths are POSIX paths.  The disk maps a normalised path to a file, with
    its content, modification time and the permissions of the process on
    it, or to a directory; [/] and [.] are directories that are always
    there.  The clock advances by one millisecond with every change. *)
Module MemFs.

Inductive node : Type :=
  | File (content : string) (modified : Date) (readable writable : bool)
  | Dir (modified : Date).

Record t : Type := mk { nodes : gmap string node; clock : Date }.

(** *** [path.posix] *)

Definition slash : Ascii.ascii := Ascii.ascii_of_nat 47.

Fixpoint segments (cur s : string) : list string :=
  match s with
  | EmptyString => [cur]
  | String c s' =>
      if decide (c = slash) then cur :: segments "" s'
      else segments (cur +:+ String c "") s'
  end.

Definition normalize_step (allowAboveRoot : bool) (acc : list string) (seg : string)
    : list string :=
  if decide (seg = "" ∨ seg = ".") then acc
  else if decide (seg = "..") then
    match acc with
    | last :: acc' => if decide (last = "..") then seg :: acc else acc'
    | [] => if allowAboveRoot then [seg] else []
    end
  else seg :: acc.

Definition starts_with_slash (s : string) : bool :=
  match s with String c _ => bool_decide (c = slash) | EmptyString => false end.

Fixpoint ends_with_slash (s : string) : bool :=
  match s with
  | EmptyString => false
  | String c EmptyString => bool_decide (c = slash)
  | String _ s' => ends_with_slash s'
  end.

Fixpoint join_segments (l : list string) : string :=
  match l with
  | [] => ""
  | [x] => x
  | x :: l' => x +:+ "/" +:+ join_segments l'
  end.

Definition normalize (p : string) : string :=
  if decide (p = "") then "."
  else
    let isAbsolute := starts_with_slash p in
    let trailingSeparator := ends_with_slash p in
    let body :=
      join_segments
        (rev (fold_left (normalize_step (negb isAbsolute)) (segments "" p) [])) in
    if decide (body = "") then
      if isAbsolute then "/" else if trailingSeparator then "./" else "."
    else
      let body := if trailingSeparator then body +:+ "/" else body in
      if isAbsolute then "/" +:+ body else body.

Definition join (a b : string) : string :=
  if decide (a = "") then normalize b
  else if decide (b = "") then normalize a
  else normalize (a +:+ "/" +:+ b).

(** The backwards scan of [dirname]: [chars] are the characters at the
    indices [i], [i - 1], ... down to index 1. *)
Fixpoint dirname_end (chars : list Ascii.ascii) (i : nat) (matchedSlash : bool)
    : option nat :=
  match chars with
  | [] => None
  | c :: chars' =>
      if decide (c = slash) then
        if matchedSlash then dirname_end chars' (i - 1) true else Some i
      else dirname_end chars' (i - 1) false
  end.

Definition dirname (p : string) : string :=
  if decide (p = "") then "."
  else
    let hasRoot := starts_with_slash p in
    let chars := String.list_ascii_of_string p in
    match dirname_end (rev (tail chars)) (length chars - 1) true with
    | None => if hasRoot then "/" else "."
    | Some e =>
        if hasRoot && bool_decide (e = 1) then "//"
        else String.string_of_list_ascii (take e chars)
    end.

(** *** [Date.prototype.toISOString]

    A date is valid within 8.64e15 milliseconds of the epoch; on any
    other the method throws a [RangeError]. *)

Definition max_time : Z := 8640000000000000.

Definition valid_time (ms : Date) : Prop := (- max_time ≤ ms ≤ max_time)%Z.

Definition pad (width : nat) (n : Z) : string :=
  let digits := pretty n in
  String.string_of_list_ascii (replicate (width - String.length digits) (Ascii.ascii_of_nat 48)) +:+ digits.

(** Four digits for the years 0000 to 9999, a sign and six digits for
    the others. *)
Definition year_text (y : Z) : string :=
  if decide (0 ≤ y ≤ 9999)%Z then pad 4 y
  else (if decide (y < 0)%Z then "-" else "+") +:+ pad 6 (Z.abs y).

Definition iso_text (ms : Date) : string :=
  let days := (ms `div` 86400000)%Z in
  let rest := (ms `mod` 86400000)%Z in
  let z := (days + 719468)%Z in
  let era := (z `div` 146097)%Z in
  let doe := (z `mod` 146097)%Z in
  let yoe := ((doe - doe `div` 1460 + doe `div` 36524 - doe `div` 146096) `div` 365)%Z in
  let doy := (doe - (365 * yoe + yoe `div` 4 - yoe `div` 100))%Z in
  let mp := ((5 * doy + 2) `div` 153)%Z in
  let d := (doy - (153 * mp + 2) `div` 5 + 1)%Z in
  let m := (if decide (mp < 10)%Z then mp + 3 else mp - 9)%Z in
  let y := (yoe + era * 400 + (if decide (m ≤ 2)%Z then 1 else 0))%Z in
  year_text y +:+ "-" +:+ pad 2 m +:+ "-" +:+ pad 2 d +:+ "T"
  +:+ pad 2 (rest `div` 3600000) +:+ ":" +:+ pad 2 ((rest `div` 60000) `mod` 60)
  +:+ ":" +:+ pad 2 ((rest `div` 1000) `mod` 60) +:+ "." +:+ pad 3 (rest `mod` 1000)
  +:+ "Z".

Definition toISOString (ms : Date) : thrown + string :=
  if decide (valid_time ms) then inr (iso_text ms)
  else inl (ErrorObj "Invalid time value").

(** *** [fs] *)

Definition is_root (p : string) : bool := bool_decide (p = "/" ∨ p = ".").

Definition node_at (d : t) (p : string) : option node :=
  if is_root p then Some (Dir 0%Z) else nodes d !! p.

(** The modification time of a node. *)
Definition node_time (n : node) : Date :=
  match n with
  | File _ modified _ _ => modified
  | Dir modified => modified
  end.

Definition enoent (syscall p : string) : thrown :=
  ErrorObj ("ENOENT: no such file or directory, " +:+ syscall +:+ " '" +:+ p +:+ "'").

Definition eacces (syscall p : string) : thrown :=
  ErrorObj ("EACCES: permission denied, " +:+ syscall +:+ " '" +:+ p +:+ "'").

Definition eisdir (syscall p : string) : thrown :=
  ErrorObj ("EISDIR: illegal operation on a directory, " +:+ syscall +:+ " '" +:+ p +:+ "'").

Definition enotdir (syscall p : string) : thrown :=
  ErrorObj ("ENOTDIR: not a directory, " +:+ syscall +:+ " '" +:+ p +:+ "'").

Definition eexist (syscall p : string) : thrown :=
  ErrorObj ("EEXIST: file already exists, " +:+ syscall +:+ " '" +:+ p +:+ "'").

Definition existsSync (d : t) (p : string) : bool :=
  match node_at d p with Some _ => true | None => false end.

Definition statSync (d : t) (p : string) : thrown + Stats :=
  match node_at d p with
  | Some (File _ modified _ _) => inr {| mtime := modified |}
  | Some (Dir modified) => inr {| mtime := modified |}
  | None => inl (enoent "stat" p)
  end.

Definition readFileSync (d : t) (p : string) : thrown + string :=
  match node_at d p with
  | Some (File content _ true _) => inr content
  | Some (File _ _ false _) => inl (eacces "open" p)
  | Some (Dir _) => inl (eisdir "read" p)
  | None => inl (enoent "open" p)
  end.

(** The time of the system, with which files and directories are
    stamped: always a valid date. *)
Definition time (d : t) : Date := Z.max (- max_time) (Z.min max_time (clock d)).

(** [mkdir -p]: the missing ancestors first, then the directory; [fuel]
    bounds the length of the chain. *)
Fixpoint mkdir_p (fuel : nat) (d : t) (p : string) : t * option thrown :=
  match node_at d p with
  | Some (Dir _) => (d, None)
  | Some (File _ _ _ _) => (d, Some (eexist "mkdir" p))
  | None =>
      match fuel with
      | 0 => (d, Some (enoent "mkdir" p))
      | S fuel' =>
          match mkdir_p fuel' d (dirname p) with
          | (d', Some e) => (d', Some e)
          | (d', None) =>
              match node_at d' (dirname p) with
              | Some (Dir _) =>
                  (mk (<[p := Dir (time d')]> (nodes d')) (clock d' + 1)%Z, None)
              | _ => (d', Some (enotdir "mkdir" p))
              end
          end
      end
  end.

Definition mkdirSync (d : t) (p : string) : t * option thrown :=
  mkdir_p (String.length p) d p.

Definition writeFileSync (d : t) (p data : string) : t * option thrown :=
  match node_at d (dirname p) with
  | None => (d, Some (enoent "open" p))
  | Some (File _ _ _ _) => (d, Some (enotdir "open" p))
  | Some (Dir _) =>
      match node_at d p with
      | Some (Dir _) => (d, Some (eisdir "open" p))
      | Some (File _ _ readable true) =>
          (mk (<[p := File data (time d) readable true]> (nodes d)) (clock d + 1)%Z, None)
      | Some (File _ _ _ false) => (d, Some (eacces "open" p))
      | None =>
          (mk (<[p := File data (time d) true true]> (nodes d)) (clock d + 1)%Z, None)
      end
  end.

Definition fileContent (d : t) (p : string) : option string :=
  match node_at d p with
  | Some (File content _ _ _) => Some content
  | _ => None
  end.

#[global] Instance node_env : NodeEnv t := {|
  path_join := join;
  path_dirname := dirname;
  date_toISOString := toISOString;
  fs_existsSync := existsSync;
  fs_statSync := statSync;
  fs_readFileSync := readFileSync;
  fs_mkdirSync := mkdirSync;
  fs_writeFileSync := writeFileSync;
  fs_fileContent := fileContent
|}.

(** A world with nothing done yet. *)
Definition start (folder : option string) (files : list string) (d : t) : world t :=
  World folder files d [] [] [].

(** *** Some disks *)

(** The time of the examples: 2025-11-03T01:04:05.123Z. *)
Definition now : Date := 1762131845123.

(** An empty workspace folder [/ws]. *)
Definition empty_workspace : t := mk {[ "/ws" := Dir 1762131800000 ]} now.

(** [/ws] with [Claude.md] only. *)
Definition claude_only : t :=
  mk (<[ "/ws/Claude.md" := File "rules" 1762131801000 true true ]>
        (nodes empty_workspace)) now.

(** [/ws] with an [AGENTS.md] that can be written but not read (mode
    0200) and a [Claude.md] that can be read but not written (0400). *)
Definition write_only_first : t :=
  mk (<[ "/ws/AGENTS.md" := File "old agents" 1762131802000 false true ]>
        (<[ "/ws/Claude.md" := File "old claude" 1762131801000 true false ]>
           (nodes empty_workspace))) now.

(** [/ws] with a readable [AGENTS.md] and a [Claude.md] that cannot be
    read (mode 0000). *)
Definition unreadable_second : t :=
  mk (<[ "/ws/AGENTS.md" := File "rules" 1762131802000 true true ]>
        (<[ "/ws/Claude.md" := File "secret" 1762131801000 false false ]>
           (nodes empty_workspace))) now.

(** [/ws] with an [AGENTS.md] whose modification time is out of the
    range of [Date], so that [stat] gives it an invalid date, and a
    [Claude.md]. *)
Definition undated_first : t :=
  mk (<[ "/ws/AGENTS.md" := File "rules" 8640000000000001 true true ]>
        (<[ "/ws/Claude.md" := File "claude" 1762131801000 true true ]>
           (nodes empty_workspace))) now.

(** The default value of the setting [agentRulesSync.ruleFiles] in
    [package.json]. *)
Definition default_ruleFiles : list string :=
  ["AGENTS.md"; "Claude.md"; ".cursor/rules/project-rules.mdc";
   ".github/copilot-instructions.md"; ".roo/rules/rules.md"; ".windsurfrules"].

(** *** Some worlds *)

Definition fresh : world t := start (Some "/ws") default_ruleFiles empty_workspace.

Definition no_folder : world t := start None default_ruleFiles empty_workspace.

Definition no_files : world t := start (Some "/ws") [] empty_workspace.

Definition second_wins : world t :=
  start (Some "/ws") ["AGENTS.md"; "Claude.md"] claude_only.

Definition write_only : world t :=
  start (Some "/ws") ["AGENTS.md"; "Claude.md"] write_only_first.

Definition hidden : world t :=
  start (Some "/ws") ["AGENTS.md"; "Claude.md"; "GEMINI.md"] write_only_first.

Definition unreadable : world t :=
  start (Some "/ws") ["AGENTS.md"; "Claude.md"] unreadable_second.

Definition undated : world t :=
  start (Some "/ws") ["AGENTS.md"; "Claude.md"] undated_first.

End MemFs.


(** ** Kinds of calls *)

(** The calls that only look at the disk, and read as [utf8]. *)
Definition reading (c : call) : Prop :=
  ∃ x, c = ExistsSync x ∨ c = StatSync x ∨ c = ReadFileSync x "utf8".

(** The calls of a save of [content]. *)
Definition writing (content : string) (c : call) : Prop :=
  ∃ x, c = ExistsSync x ∨ c = MkdirSync x true ∨ c = WriteFileSync x content "utf8".

(** ** The commands registered by [activate]

    [agentRulesSync.addRuleFile] and [agentRulesSync.removeRuleFile] edit
    the setting [ruleFiles].  What the user answers to [showInputBox] and
    [showQuickPick], and whether [config.update] resolves or rejects, are
    given to the handlers; [config.get] hands out a copy of the value, and
    a rejected update leaves the setting as it was and ends the handler
    with the rejection. *)

(** [vscode.window.showInformationMessage] and [showWarningMessage], as
    the commands call them. *)
Inductive toast : Type :=
  | InformationToast (text : string)
  | WarningToast (text : string).

Record settings : Type := Settings {
  setting_ruleFiles : list string;   (* the value of [ruleFiles] *)
  toasts : list toast
}.

Definition show_toast (t : toast) (s : settings) : settings :=
  Settings (setting_ruleFiles s) (toasts s ++ [t]).

(** [await config.update('ruleFiles', value, ConfigurationTarget.Workspace)] *)
Definition config_update (value : list string) (rejection : option thrown) (s : settings)
    : completion () * settings :=
  match rejection with
  | Some e => (Throw e, s)
  | None => (Normal (), Settings value (toasts s))
  end.

(** [if (answer)] on a [string | undefined]: neither [undefined] nor [""]. *)
Definition truthy (answer : option string) : option string :=
  match answer with
  | Some text => if decide (text = "") then None else Some text
  | None => None
  end.

Definition addRuleFile (input : option string) (rejection : option thrown) (s : settings)
    : completion () * settings :=
  match truthy input with
  | Some filePath =>
      let currentFiles := setting_ruleFiles s in
      if decide (filePath ∈ currentFiles) then
        (Normal (),
         show_toast (WarningToast (filePath +:+ " is already in agent rule files")) s)
      else
        match config_update (currentFiles ++ [filePath]) rejection s with
        | (Normal _, s') =>
            (Normal (),
             show_toast (InformationToast ("Added " +:+ filePath +:+ " to agent rule files")) s')
        | (Throw e, s') => (Throw e, s')
        end
  | None => (Normal (), s)
  end.

(** [pick] is the user before the quick pick: the item chosen among those
    shown, or nothing. *)
Definition removeRuleFile (pick : list string → option string) (rejection : option thrown)
    (s : settings) : completion () * settings :=
  let currentFiles := setting_ruleFiles s in
  if decide (length currentFiles = 0) then
    (Normal (), show_toast (InformationToast "No rule files to remove") s)
  else
    match truthy (pick currentFiles) with
    | Some fileToRemove =>
        let updatedFiles := filter (λ file, file ≠ fileToRemove) currentFiles in
        match config_update updatedFiles rejection s with
        | (Normal _, s') =>
            (Normal (),
             show_toast
               (InformationToast ("Removed " +:+ fileToRemove +:+ " from agent rule files")) s')
        | (Throw e, s') => (Throw e, s')
        end
    | None => (Normal (), s)
    end.

(** ** The script of the webview

    The page of [_getHtmlForWebview]: the text area, the two buttons, the
    status line and the list of badges, with the handlers of its script.
    [timeouts] are the delays of the pending [setTimeout] callbacks, each
    of which hides the status line; [outbox] is what the script has sent
    with [vscode.postMessage]. *)

(** What the script posts: [{ command: 'load' }] and
    [{ command: 'save', content }]; the [switch] of the panel has no
    [default], any other command goes through it untouched. *)
Inductive request : Type :=
  | load_request
  | save_request (content : string)
  | other_request (command : string).

Record badge : Type := Badge { className : string; innerHTML : string }.

Record page : Type := Page {
  editor_raw : string;             (* what was last put into the text area *)
  loadBtn_disabled : bool;
  saveBtn_disabled : bool;
  status_textContent : string;
  status_className : string;
  status_display : string;
  fileList : list badge;
  timeouts : list nat;
  outbox : list request
}.

(** The line breaks of a text area: [value] gives what the text area
    holds with every CR LF and every lone CR turned into LF.  [after_cr]
    says that the character before was a CR, whose LF is out already. *)
Fixpoint normalize_newlines (after_cr : bool) (text : string) : string :=
  match text with
  | EmptyString => EmptyString
  | String c text' =>
      if decide (c = Ascii.ascii_of_nat 13) then
        String (Ascii.ascii_of_nat 10) (normalize_newlines true text')
      else if decide (c = Ascii.ascii_of_nat 10) then
        if after_cr then normalize_newlines false text'
        else String c (normalize_newlines false text')
      else String c (normalize_newlines false text')
  end.

(** [editor.value], read. *)
Definition editor_value (p : page) : string := normalize_newlines false (editor_raw p).

(** The page as the HTML gives it, before the script has run. *)
Definition blank_page : page :=
  Page "" false false "" "status" "none" [] [] [].

Section Webview.

(** [new Date(lastModified).toLocaleString()], which depends on the locale
    of the user. *)
Variable toLocaleString : string → string.

Definition showStatus (text type : string) (p : page) : page :=
  Page (editor_raw p) (loadBtn_disabled p) (saveBtn_disabled p)
    text ("status " +:+ type) "block" (fileList p) (timeouts p ++ [5000]) (outbox p).

Definition badge_of (file : FileStatus.t) : badge :=
  Badge
    ("file-status " +:+ (if FileStatus.exists_ file then "file-exists" else "file-missing"))
    (if FileStatus.exists_ file then
       "✓ " +:+ FileStatus.file file +:+
       match truthy (FileStatus.lastModified file) with
       | Some lastModified => " (" +:+ toLocaleString lastModified +:+ ")"
       | None => ""
       end
     else "✗ " +:+ FileStatus.file file +:+ " (missing)").

(** [fileListDiv.innerHTML = ''] and then an [appendChild] per file. *)
Definition updateFileList (files : list FileStatus.t) (p : page) : page :=
  Page (editor_raw p) (loadBtn_disabled p) (saveBtn_disabled p)
    (status_textContent p) (status_className p) (status_display p)
    (fold_left (λ children file, children ++ [badge_of file]) files [])
    (timeouts p) (outbox p).

Definition set_editor (text : string) (p : page) : page :=
  Page text (loadBtn_disabled p) (saveBtn_disabled p)
    (status_textContent p) (status_className p) (status_display p)
    (fileList p) (timeouts p) (outbox p).

Definition set_loadBtn (disabled : bool) (p : page) : page :=
  Page (editor_raw p) disabled (saveBtn_disabled p)
    (status_textContent p) (status_className p) (status_display p)
    (fileList p) (timeouts p) (outbox p).

Definition set_saveBtn (disabled : bool) (p : page) : page :=
  Page (editor_raw p) (loadBtn_disabled p) disabled
    (status_textContent p) (status_className p) (status_display p)
    (fileList p) (timeouts p) (outbox p).

Definition page_postMessage (r : request) (p : page) : page :=
  Page (editor_raw p) (loadBtn_disabled p) (saveBtn_disabled p)
    (status_textContent p) (status_className p) (status_display p)
    (fileList p) (timeouts p) (outbox p ++ [r]).

Definition take_outbox (p : page) : page :=
  Page (editor_raw p) (loadBtn_disabled p) (saveBtn_disabled p)
    (status_textContent p) (status_className p) (status_display p)
    (fileList p) (timeouts p) [].

(** The [click] listeners of the two buttons. *)
Definition click_load (p : page) : page :=
  page_postMessage load_request (set_loadBtn true p).

Definition click_save (p : page) : page :=
  let content := editor_value p in
  page_postMessage (save_request content) (set_saveBtn true p).

(** The [message] listener of the window; [editor.value = message.content]
    is [set_editor]. *)
Definition on_message (m : message) (p : page) : page :=
  match m with
  | loadContent content files =>
      let p := set_loadBtn false (updateFileList files (set_editor content p)) in
      if decide (content = "")
      then showStatus "No existing agent rules found" "info" p
      else showStatus "Agent rules loaded successfully" "success" p
  | saveResults results =>
      let p := set_saveBtn false p in
      let successful := length (filter (λ r, SaveResult.success r = true) results) in
      let failed := length (filter (λ r, SaveResult.success r = false) results) in
      if decide (failed = 0)
      then showStatus ("Successfully saved to " +:+ pretty successful +:+ " file(s)")
             "success" p
      else showStatus
             ("Saved to " +:+ pretty successful +:+ " file(s), failed "
              +:+ pretty failed +:+ " file(s)") "error" p
  end.

(** The script as it starts: it asks for the content at once. *)
Definition script_start (p : page) : page := page_postMessage load_request p.

End Webview.

(** ** The panel and its webview together *)

Section Session.

Context {FS : Type} `{Node : NodeEnv FS}.

Variable toLocaleString : string → string.

#[local] Existing Instances M_ret M_bind block_ret block_bind.

(** The listener the constructor of [AgentRulesPanel] gives to
    [onDidReceiveMessage]. *)
Definition onDidReceiveMessage (r : request) : M () :=
  match r with
  | save_request content => _saveToAllFiles content
  | load_request => _loadContent
  | other_request _ => mret ()
  end.

(** The messages of the panel reach the page in the order they were
    posted. *)
Definition deliver (ms : list message) (p : page) : page :=
  fold_left (λ p m, on_message toLocaleString m p) ms p.

(** One request of the page served by the panel, and the answers of the
    panel handled by the page. *)
Definition serve (state : world FS * page) (r : request) : world FS * page :=
  let '(w, p) := state in
  let w' := (onDidReceiveMessage r w).2 in
  (w', deliver (drop (length (posted w)) (posted w')) p).

(** Everything the page has sent is served, oldest first. *)
Definition settle (w : world FS) (p : page) : world FS * page :=
  fold_left serve (outbox p) (w, take_outbox p).

End Session.

(** ** Some settings, pages and worlds *)

Module Samples.

(** The setting as [package.json] gives it. *)
Definition configured : settings := Settings MemFs.default_ruleFiles [].

(** The text of the times as it is: a stand-in for [toLocaleString]. *)
Definition locale (lastModified : string) : string := lastModified.

(** The page with [rules] typed into the editor. *)
Definition typed : page := set_editor "rules" blank_page.

(** [/ws] with an empty [AGENTS.md] and a [Claude.md] that holds rules. *)
Definition empty_agents : world MemFs.t :=
  MemFs.start (Some "/ws") ["AGENTS.md"; "Claude.md"]
    (MemFs.mk
       (<[ "/ws/AGENTS.md" := MemFs.File "" 1762131802000 true true ]>
          (MemFs.nodes MemFs.claude_only))
       MemFs.now).

End Samples.

(** * Properties *)

Section Properties.

Context {FS : Type} `{Node : NodeEnv FS}.

Implicit Types (w : world FS) (d : FS) (l : list string).

#[local] Existing Instances M_ret M_bind block_ret block_bind.

Lemma advance_nothing w : advance (disk w) [] w = w.
Proof. destruct w. unfold advance. simpl. by rewrite app_nil_r. Qed.

Lemma advance_advance d1 cs1 d2 cs2 w :
  advance d2 cs2 (advance d1 cs1 w) = advance d2 (cs1 ++ cs2) w.
Proof. unfold advance. simpl. by rewrite app_assoc. Qed.

(** The body of [save_turn] is [attempt], and its entry [result_of]. *)
Lemma save_turn_attempt base content filePath results w :
  save_turn base content filePath results w =
  let '(d1, r, cs) := attempt base content filePath (disk w) in
  (Normal (Continue (results ++ [result_of filePath r])), advance d1 cs w).
Proof.
  unfold save_turn, attempt, try_catch, mbind, M_bind, mret, M_ret,
    existsSync, mkdirSync, writeFileSync.
  destruct w as [wf rf d cs sh po]. cbn.
  destruct (fs_existsSync d _); cbn.
  - destruct (fs_writeFileSync d _ content) as [d1 [e|]]; cbn;
      unfold advance, log, set_disk; cbn; by rewrite <- !app_assoc.
  - destruct (fs_mkdirSync d _) as [d1 [e|]]; cbn.
    + unfold advance, log, set_disk; cbn; by rewrite <- !app_assoc.
    + destruct (fs_writeFileSync d1 _ content) as [d2 [e|]]; cbn;
        unfold advance, log, set_disk; cbn; by rewrite <- !app_assoc.
Qed.

Lemma save_loop_attempts base content l results w :
  for_of l (save_turn base content) results w =
  let '(d1, rs, cs) := attempts base content l (disk w) in
  (Normal (results ++ rs), advance d1 cs w).
Proof.
  revert results w. induction l as [|p l IH]; intros results w.
  - cbn. by rewrite app_nil_r, advance_nothing.
  - cbn [for_of attempts]. unfold mbind at 1, M_bind.
    rewrite save_turn_attempt.
    destruct (attempt base content p (disk w)) as [[d1 r] cs].
    rewrite IH. cbn [disk advance].
    destruct (attempts base content l d1) as [[d2 rs] cs'].
    by rewrite advance_advance, <- app_assoc.
Qed.

Lemma saveToAllFiles_attempts base content w :
  workspaceFolder w = Some base →
  _saveToAllFiles content w =
  let '(d1, rs, cs) := attempts base content (ruleFiles w) (disk w) in
  (Normal (), post (saveResults rs) (show (summary rs) (advance d1 cs w))).
Proof.
  intros Hbase. unfold _saveToAllFiles, get_ruleFiles, get_workspaceFolder.
  unfold mbind at 1 2, M_bind. rewrite Hbase.
  unfold mbind at 1, M_bind. rewrite save_loop_attempts.
  destruct (attempts base content (ruleFiles w) (disk w)) as [[d1 rs] cs].
  cbn [app]. unfold summary, mbind, M_bind, postMessage.
  by destruct (decide _).
Qed.

Lemma attempts_files base content l d :
  SaveResult.file <$> (attempts base content l d).1.2 = l.
Proof.
  revert d. induction l as [|p l IH]; intros d; [done|].
  cbn [attempts]. destruct (attempt base content p d) as [[d1 r] cs].
  specialize (IH d1). destruct (attempts base content l d1) as [[d2 rs] cs'].
  cbn in *. rewrite IH. by destruct r.
Qed.

Lemma attempts_lookup base content l d i p :
  l !! i = Some p →
  (attempts base content l d).1.2 !! i =
  Some (result_of p (attempt base content p (disk_before base content l d i)).1.2).
Proof.
  revert d i. induction l as [|q l IH]; intros d i Hp; [done|].
  unfold disk_before. destruct i as [|i]; cbn [take attempts].
  - injection Hp as ->. cbn [fst].
    destruct (attempt base content p d) as [[d1 r] cs].
    by destruct (attempts base content l d1) as [[d2 rs] cs'].
  - specialize (IH (attempt base content q d).1.1 i Hp). unfold disk_before in IH.
    destruct (attempt base content q d) as [[d1 r] cs]. cbn in IH.
    destruct (attempts base content l d1) as [[d2 rs] cs'].
    destruct (attempts base content (take i l) d1) as [[d3 rs3] cs3].
    exact IH.
Qed.

Lemma attempts_begin base content l d p :
  p ∈ l → ExistsSync (path_dirname (path_join base p)) ∈ (attempts base content l d).2.
Proof.
  revert d. induction l as [|q l IH]; intros d Hp; [by apply elem_of_nil in Hp|].
  cbn [attempts].
  assert (ExistsSync (path_dirname (path_join base q)) ∈ (attempt base content q d).2)
    as Hq.
  { unfold attempt. destruct (fs_existsSync d _).
    - destruct (fs_writeFileSync d _ content) as [d1 r]. apply elem_of_cons. by left.
    - destruct (fs_mkdirSync d _) as [d1 [e|]]; [apply elem_of_cons; by left|].
      destruct (fs_writeFileSync d1 _ content) as [d2 r]. apply elem_of_cons. by left. }
  destruct (attempt base content q d) as [[d1 r] cs]. specialize (IH d1).
  destruct (attempts base content l d1) as [[d2 rs] cs']. cbn in *.
  apply elem_of_app. apply elem_of_cons in Hp as [->|Hp]; [by left|right; by apply IH].
Qed.

(** *** The loops of [_loadContent] *)

Lemma scan_turn_winner base filePath content sts w :
  scan_turn base filePath (content, sts) w =
  let fullPath := path_join base filePath in
  match winner (disk w) fullPath with
  | Some (lastModified, content') =>
      (Normal (Break ()),
       (content', sts ++ [FileStatus.mk filePath true (Some lastModified)]),
       advance (disk w) (scan_calls (disk w) fullPath) w)
  | None =>
      (Normal (Continue ()),
       (default content (assigned (disk w) fullPath), sts ++ [missing filePath]),
       advance (disk w) (scan_calls (disk w) fullPath) w)
  end.
Proof.
  unfold scan_turn, winner, assigned, scan_calls, try_catch_block, mbind, block_bind,
    mret, block_ret, lift, assign, existsSync, statSync, readFileSync, toISOString.
  destruct w as [wf rf d cs sh po]. cbn.
  destruct (fs_existsSync d _); cbn; [|done].
  destruct (fs_statSync d _) as [e|stats]; cbn;
    [unfold advance, log; cbn; by rewrite <- !app_assoc|].
  destruct (fs_readFileSync d _) as [e|content']; cbn;
    [unfold advance, log; cbn; by rewrite <- !app_assoc|].
  destruct (date_toISOString (mtime stats)) as [e|lastModified]; cbn;
    unfold advance, log; cbn; by rewrite <- !app_assoc.
Qed.

Lemma scan_loop base l content sts w :
  for_of_block l (scan_turn base) (content, sts) w =
  let '(found, sts', cs) := scan base (disk w) l in
  (Normal (), (default content found, sts ++ sts'), advance (disk w) cs w).
Proof.
  revert content sts w. induction l as [|p l IH]; intros content sts w.
  - cbn. by rewrite app_nil_r, advance_nothing.
  - cbn [for_of_block scan]. unfold mbind at 1, block_bind.
    rewrite scan_turn_winner. cbn zeta.
    destruct (winner (disk w) (path_join base p)) as [[lastModified content']|]; [done|].
    rewrite IH. cbn [disk advance].
    destruct (scan base (disk w) l) as [[found sts'] cs'].
    rewrite advance_advance, <- app_assoc.
    by destruct found, (assigned (disk w) (path_join base p)).
Qed.

Lemma status_turn_entry base l i filePath content sts w :
  l !! i = Some filePath →
  status_turn base l i (content, sts) w =
  (Normal (), (content, sts ++ [status_of base (disk w) filePath]),
   advance (disk w) (status_calls base (disk w) filePath) w).
Proof.
  intros Hi. unfold status_turn, status_of, status_calls. rewrite Hi.
  unfold try_catch_block, mbind, block_bind, mret, block_ret, lift, assign,
    existsSync, statSync, toISOString.
  destruct w as [wf rf d cs sh po]. cbn.
  destruct (fs_existsSync d _); cbn; [|done].
  destruct (fs_statSync d _) as [e|stats]; cbn;
    [unfold advance, log; cbn; by rewrite <- !app_assoc|].
  destruct (date_toISOString (mtime stats)) as [e|lastModified]; cbn;
    unfold advance, log; cbn; by rewrite <- !app_assoc.
Qed.

Lemma status_loop base l from count content sts w :
  (count ≠ 0 → from + count ≤ length l)%nat →
  for_index from count (status_turn base l) (content, sts) w =
  (Normal (), (content, sts ++ (status_of base (disk w) <$> take count (drop from l))),
   advance (disk w) (take count (drop from l) ≫= status_calls base (disk w)) w).
Proof.
  revert from sts w. induction count as [|count IH]; intros from sts w Hlen.
  - cbn. by rewrite app_nil_r, advance_nothing.
  - specialize (Hlen ltac:(done)).
    destruct (lookup_lt_is_Some_2 l from) as [p Hp]; [lia|].
    cbn [for_index]. unfold mbind at 1, block_bind.
    rewrite (status_turn_entry _ _ _ p) by done.
    rewrite IH by lia. cbn [disk advance].
    rewrite (drop_S _ _ _ Hp). cbn [take fmap list_fmap mbind list_bind].
    by rewrite advance_advance, <- app_assoc.
Qed.

Lemma loadContent_scan base w :
  workspaceFolder w = Some base →
  _loadContent w =
  let '(found, scanned, cs) := scan base (disk w) (ruleFiles w) in
  let rest := drop 1 (ruleFiles w) in
  (Normal (),
   post (loadContent (default "" found) (scanned ++ (status_of base (disk w) <$> rest)))
     (advance (disk w) (cs ++ (rest ≫= status_calls base (disk w))) w)).
Proof.
  intros Hbase. unfold _loadContent, get_ruleFiles, get_workspaceFolder.
  unfold mbind at 1 2, M_bind. rewrite Hbase.
  unfold mbind at 1, M_bind. unfold with_locals.
  unfold mbind at 1, block_bind. rewrite scan_loop.
  destruct (scan base (disk w) (ruleFiles w)) as [[found scanned] cs].
  cbn [app].
  rewrite status_loop by (cbn; lia). cbn [disk advance].
  rewrite advance_advance.
  assert (take (length (ruleFiles w) - 1) (drop 1 (ruleFiles w)) = drop 1 (ruleFiles w))
    as -> by (apply take_ge; rewrite length_drop; lia).
  done.
Qed.

(** *** What the first loop pushes *)

Lemma scan_nothing_there base d l :
  (∀ q, q ∈ l → fs_existsSync d (path_join base q) = false) →
  scan base d l = (None, missing <$> l, l ≫= λ q, scan_calls d (path_join base q)).
Proof.
  induction l as [|q l IH]; intros Hl; [done|].
  cbn [scan]. unfold winner, assigned. rewrite (Hl q) by (apply elem_of_cons; by left).
  rewrite IH by (intros; apply Hl; apply elem_of_cons; by right). done.
Qed.

Lemma scan_stops base d pre p post lastModified content :
  (∀ q, q ∈ pre → winner d (path_join base q) = None) →
  winner d (path_join base p) = Some (lastModified, content) →
  scan base d (pre ++ p :: post) =
  (Some content,
   (missing <$> pre) ++ [FileStatus.mk p true (Some lastModified)],
   (pre ≫= λ q, scan_calls d (path_join base q)) ++ scan_calls d (path_join base p)).
Proof.
  intros Hpre Hp. induction pre as [|q pre IH].
  - cbn [app scan fmap list_fmap mbind list_bind]. by rewrite Hp.
  - cbn [app scan]. rewrite (Hpre q) by (apply elem_of_cons; by left).
    rewrite IH by (intros; apply Hpre; apply elem_of_cons; by right).
    cbn. by rewrite app_assoc.
Qed.

Lemma scan_entry base d l i p :
  l !! i = Some p →
  (∀ q, q ∈ take i l → winner d (path_join base q) = None) →
  winner d (path_join base p) = None →
  (scan base d l).1.2 !! i = Some (missing p).
Proof.
  revert i. induction l as [|q l IH]; intros i Hi Hpre Hp; [done|].
  destruct i as [|i]; cbn [scan].
  - injection Hi as ->. rewrite Hp.
    by destruct (scan base d l) as [[found sts] cs].
  - cbn in Hi, Hpre. rewrite (Hpre q) by set_solver.
    specialize (IH i Hi ltac:(intros; apply Hpre; set_solver) Hp).
    by destruct (scan base d l) as [[found sts] cs].
Qed.



Lemma status_of_absent base d p :
  fs_existsSync d (path_join base p) = false → status_of base d p = missing p.
Proof. unfold status_of. by intros ->. Qed.

(** How many entries [_loadContent] posts: those of the first loop, up to
    the winner, and one more for every index from 1 on. *)
Lemma loadContent_count base w :
  workspaceFolder w = Some base →
  ∃ content files,
    posted (_loadContent w).2 = posted w ++ [loadContent content files] ∧
    length files = length (scan base (disk w) (ruleFiles w)).1.2 + (length (ruleFiles w) - 1).
Proof.
  intros Hbase. rewrite (loadContent_scan base) by done.
  destruct (scan base (disk w) (ruleFiles w)) as [[found scanned] cs].
  eexists _, _. split; [done|].
  rewrite length_app, length_fmap, length_drop. done.
Qed.

(** Claim C8: without a workspace folder, and likewise with an empty list
    of rule files, [_loadContent] posts the content [""] with no statuses
    and does nothing else: no call into [fs], no notification, no throw. *)
Theorem loadContent_nothing_to_load w :
  workspaceFolder w = None ∨ ruleFiles w = [] →
  _loadContent w = (Normal (), post (loadContent "" []) w).
Proof.
  intros Hw. unfold _loadContent, get_ruleFiles, get_workspaceFolder.
  unfold mbind at 1 2, M_bind.
  destruct (workspaceFolder w) as [base|] eqn:Hbase; [|done].
  destruct Hw as [|Hfiles]; [done|]. by rewrite Hfiles.
Qed.

(** Claim C9: when no configured path exists on disk, [_loadContent] posts
    the empty content, and every status it posts has [exists] false. *)
Theorem loadContent_nothing_exists w :
  (∀ base p, workspaceFolder w = Some base → p ∈ ruleFiles w →
             fs_existsSync (disk w) (path_join base p) = false) →
  ∃ files,
    (_loadContent w).1 = Normal () ∧
    posted (_loadContent w).2 = posted w ++ [loadContent "" files] ∧
    Forall (λ st, FileStatus.exists_ st = false) files.
Proof.
  intros Habsent. destruct (workspaceFolder w) as [base|] eqn:Hbase.
  - rewrite (loadContent_scan base) by done.
    rewrite scan_nothing_there by (intros q Hq; by apply (Habsent base q)).
    eexists. split_and!; [done..|].
    apply Forall_app. split; apply Forall_fmap, Forall_forall; intros q Hq; cbn.
    + done.
    + rewrite status_of_absent; [done|].
      apply (Habsent base); [done|]. by eapply subseteq_drop.
  - unfold _loadContent, get_ruleFiles, get_workspaceFolder, mbind, M_bind.
    rewrite Hbase. exists []. by split_and!.
Qed.


(** Claim C6, amended: a path the first loop comes to, which exists but
    whose [stat] or whose read throws, gets from that loop the entry a
    missing path gets, [exists] false and no [lastModified]; so does, from
    the second loop, a path whose [stat] throws.  Nothing is shown to the
    user and the method returns normally. *)
Theorem loadContent_hides_failures w base :
  workspaceFolder w = Some base →
  ∃ content scanned passed,
    (_loadContent w).1 = Normal () ∧
    posted (_loadContent w).2 = posted w ++ [loadContent content (scanned ++ passed)] ∧
    shown (_loadContent w).2 = shown w ∧
    length passed = length (ruleFiles w) - 1 ∧
    (∀ i p, ruleFiles w !! i = Some p →
       (∀ q, q ∈ take i (ruleFiles w) → winner (disk w) (path_join base q) = None) →
       winner (disk w) (path_join base p) = None →
       scanned !! i = Some (FileStatus.mk p false None)) ∧
    (∀ i p e, ruleFiles w !! S i = Some p →
       fs_statSync (disk w) (path_join base p) = inl e →
       passed !! i = Some (FileStatus.mk p false None)).
Proof.
  intros Hbase. rewrite (loadContent_scan base) by done.
  pose proof (scan_entry base (disk w) (ruleFiles w)) as Hscan.
  destruct (scan base (disk w) (ruleFiles w)) as [[found scanned] cs].
  eexists _, scanned, _. split_and!; [done..| | |].
  - by rewrite length_fmap, length_drop.
  - intros i p Hi Hpre Hp. by apply Hscan.
  - intros i p e Hi He. rewrite list_lookup_fmap, lookup_drop. cbn.
    rewrite Hi. cbn. unfold status_of. rewrite He. by destruct (fs_existsSync _ _).
Qed.

(** *** [_saveToAllFiles] *)

(** Claim C7: without a workspace folder [_saveToAllFiles] shows the one
    error message and returns: no call into [fs] is made, the disk is as
    it was, and no results are posted. *)
Theorem saveToAllFiles_no_folder w content :
  workspaceFolder w = None →
  _saveToAllFiles content w =
  (Normal (), show (ErrorMessage "No workspace folder found") w).
Proof.
  intros Hbase. unfold _saveToAllFiles, get_ruleFiles, get_workspaceFolder.
  unfold mbind, M_bind. by rewrite Hbase.
Qed.

(** Claim C10: with a workspace folder and an empty list of rule files,
    [_saveToAllFiles] makes no call into [fs] and leaves the disk as it
    was; it posts an empty array of results and reports success for zero
    files. *)
Theorem saveToAllFiles_no_files w base content :
  workspaceFolder w = Some base →
  ruleFiles w = [] →
  _saveToAllFiles content w =
  (Normal (),
   post (saveResults [])
     (show (InformationMessage "Successfully saved to 0 file(s)") w)).
Proof.
  intros Hbase Hfiles. rewrite (saveToAllFiles_attempts base) by done.
  rewrite Hfiles. cbn [attempts]. by rewrite advance_nothing.
Qed.

(** Claim C2: [_saveToAllFiles] posts one result per configured path, in
    the order of the list.  The result at index [i] is that of running
    the [try] block on path [i], on the disk the turns before it have
    left, whether those threw or not: [success] true if the block
    returned, and [success] false with the message of what [mkdirSync] or
    [writeFileSync] threw otherwise.  The [try] block of every path is
    entered: its first call, [existsSync] on the parent directory, is
    made. *)
Theorem saveToAllFiles_reports_each_path w base content :
  workspaceFolder w = Some base →
  ∃ results,
    (_saveToAllFiles content w).1 = Normal () ∧
    posted (_saveToAllFiles content w).2 = posted w ++ [saveResults results] ∧
    SaveResult.file <$> results = ruleFiles w ∧
    (∀ i p, ruleFiles w !! i = Some p →
       results !! i =
       Some (match (attempt base content p
                      (disk_before base content (ruleFiles w) (disk w) i)).1.2 with
             | None => SaveResult.mk p true None
             | Some error => SaveResult.mk p false (Some (error_text error))
             end)) ∧
    (∀ p, p ∈ ruleFiles w →
       ExistsSync (path_dirname (path_join base p)) ∈ calls (_saveToAllFiles content w).2) ∧
    disk (_saveToAllFiles content w).2 =
    disk_before base content (ruleFiles w) (disk w) (length (ruleFiles w)).
Proof.
  intros Hbase. rewrite (saveToAllFiles_attempts base) by done.
  pose proof (attempts_files base content (ruleFiles w) (disk w)) as Hfiles.
  pose proof (attempts_lookup base content (ruleFiles w) (disk w)) as Hlookup.
  pose proof (attempts_begin base content (ruleFiles w) (disk w)) as Hbegin.
  unfold disk_before at 2. rewrite firstn_all.
  destruct (attempts base content (ruleFiles w) (disk w)) as [[d1 rs] cs].
  cbn [fst snd] in Hfiles, Hlookup, Hbegin.
  exists rs. split_and!; [done..| | |done].
  - intros i p Hi. by rewrite (Hlookup i p Hi).
  - intros p Hp. cbn. apply elem_of_app. right. by apply Hbegin.
Qed.

(** *** The disk after a save, for an [fs] that keeps [NodeLaws] *)

Section Laws.

Context `{!NodeLaws FS}.

Lemma attempt_keeps base content p d x :
  fs_fileContent d x = Some content →
  fs_fileContent (attempt base content p d).1.1 x = Some content.
Proof.
  intros Hx. unfold attempt.
  destruct (fs_existsSync d _).
  - pose proof (write_keeps d (path_join base p) content x Hx) as Hw.
    by destruct (fs_writeFileSync d _ content) as [d1 r].
  - pose proof (mkdir_keeps d (path_dirname (path_join base p)) content x Hx) as Hm.
    destruct (fs_mkdirSync d _) as [d1 [e|]]; [done|].
    pose proof (write_keeps d1 (path_join base p) content x Hm) as Hw.
    by destruct (fs_writeFileSync d1 _ content) as [d2 r].
Qed.

Lemma attempt_done base content p d :
  (attempt base content p d).1.2 = None →
  fs_fileContent (attempt base content p d).1.1 (path_join base p) = Some content.
Proof.
  unfold attempt. destruct (fs_existsSync d _).
  - destruct (fs_writeFileSync d _ content) as [d1 r] eqn:Hw. cbn. intros ->.
    by eapply write_done.
  - destruct (fs_mkdirSync d _) as [d1 [e|]]; [done|].
    destruct (fs_writeFileSync d1 _ content) as [d2 r] eqn:Hw. cbn. intros ->.
    by eapply write_done.
Qed.

Lemma attempts_keep base content l d x :
  fs_fileContent d x = Some content →
  fs_fileContent (attempts base content l d).1.1 x = Some content.
Proof.
  revert d. induction l as [|p l IH]; intros d Hx; [done|].
  cbn [attempts]. pose proof (attempt_keeps base content p d x Hx) as Hp.
  destruct (attempt base content p d) as [[d1 r] cs].
  specialize (IH d1 Hp). by destruct (attempts base content l d1) as [[d2 rs] cs'].
Qed.

Section Dates.

Context `{!DateLaws FS}.

Lemma attempt_keeps_date base content p d x :
  dated d x → dated (attempt base content p d).1.1 x.
Proof.
  intros Hx. unfold attempt.
  destruct (fs_existsSync d _).
  - pose proof (write_keeps_date d (path_join base p) content x Hx) as Hw.
    by destruct (fs_writeFileSync d _ content) as [d1 r].
  - pose proof (mkdir_keeps_date d (path_dirname (path_join base p)) x Hx) as Hm.
    destruct (fs_mkdirSync d _) as [d1 [e|]]; [done|].
    pose proof (write_keeps_date d1 (path_join base p) content x Hm) as Hw.
    by destruct (fs_writeFileSync d1 _ content) as [d2 r].
Qed.

Lemma attempt_dated base content p d :
  (attempt base content p d).1.2 = None →
  dated (attempt base content p d).1.1 (path_join base p).
Proof.
  unfold attempt. destruct (fs_existsSync d _).
  - destruct (fs_writeFileSync d _ content) as [d1 r] eqn:Hw. cbn. intros ->.
    by eapply write_dated.
  - destruct (fs_mkdirSync d _) as [d1 [e|]]; [done|].
    destruct (fs_writeFileSync d1 _ content) as [d2 r] eqn:Hw. cbn. intros ->.
    by eapply write_dated.
Qed.

Lemma attempts_keep_date base content l d x :
  dated d x → dated (attempts base content l d).1.1 x.
Proof.
  revert d. induction l as [|p l IH]; intros d Hx; [done|].
  cbn [attempts]. pose proof (attempt_keeps_date base content p d x Hx) as Hp.
  destruct (attempt base content p d) as [[d1 r] cs].
  specialize (IH d1 Hp). by destruct (attempts base content l d1) as [[d2 rs] cs'].
Qed.

End Dates.

Lemma result_of_success p r : SaveResult.success (result_of p r) = true → r = None.
Proof. by destruct r. Qed.

Lemma attempts_all_done base content l d p :
  Forall (λ r, SaveResult.success r = true) (attempts base content l d).1.2 →
  p ∈ l →
  fs_fileContent (attempts base content l d).1.1 (path_join base p) = Some content.
Proof.
  revert d. induction l as [|q l IH]; intros d Hall Hp; [by apply elem_of_nil in Hp|].
  cbn [attempts] in *.
  pose proof (attempt_done base content q d) as Hq.
  destruct (attempt base content q d) as [[d1 r] cs].
  pose proof (attempts_keep base content l d1 (path_join base q)) as Hkeep.
  specialize (IH d1).
  destruct (attempts base content l d1) as [[d2 rs] cs']. cbn in *.
  apply Forall_cons in Hall as [Hr Hall]. apply result_of_success in Hr.
  apply elem_of_cons in Hp as [->|Hp]; [by apply Hkeep, Hq|by apply IH].
Qed.

(** Claim C5: where the parent directory of a path does not exist, a turn
    of the loop calls [mkdirSync] on it with [recursive: true] and, once
    that has returned, [writeFileSync] with the whole content and [utf8];
    and after a save all of whose results are successes, every configured
    path exists and holds that content. *)
Theorem saveToAllFiles_creates_and_replaces w base content :
  workspaceFolder w = Some base →
  (∀ p results w0,
     let fullPath := path_join base p in
     let dir := path_dirname fullPath in
     fs_existsSync (disk w0) dir = false →
     (fs_mkdirSync (disk w0) dir).2 = None →
     calls (save_turn base content p results w0).2 =
     calls w0 ++ [ExistsSync dir; MkdirSync dir true; WriteFileSync fullPath content "utf8"])
  ∧
  (∀ results,
     posted (_saveToAllFiles content w).2 = posted w ++ [saveResults results] →
     Forall (λ r, SaveResult.success r = true) results →
     ∀ p, p ∈ ruleFiles w →
       fs_existsSync (disk (_saveToAllFiles content w).2) (path_join base p) = true ∧
       fs_fileContent (disk (_saveToAllFiles content w).2) (path_join base p)
       = Some content).
Proof.
  intros Hbase. split.
  - intros p results w0 fullPath dir Hdir Hmk. rewrite save_turn_attempt.
    unfold attempt. fold fullPath dir. rewrite Hdir.
    destruct (fs_mkdirSync (disk w0) dir) as [d1 r]. cbn in Hmk. subst r.
    by destruct (fs_writeFileSync d1 fullPath content) as [d2 r].
  - intros results. rewrite (saveToAllFiles_attempts base) by done.
    pose proof (attempts_all_done base content (ruleFiles w) (disk w)) as Hdone.
    destruct (attempts base content (ruleFiles w) (disk w)) as [[d1 rs] cs].
    cbn. intros [= <-]%app_inv_head Hall p Hp.
    specialize (Hdone p Hall Hp). eauto using content_exists.
Qed.

Section RoundTrip.

Context `{!DateLaws FS}.

(** Claim C4, amended: after [_saveToAllFiles] with content [C] whose
    result for the first path is a success, [_loadContent] on the same
    list posts the content [C], provided [stat] and the read of that
    first file then return. *)
Theorem save_then_load w base content first rest results stats text :
  workspaceFolder w = Some base →
  ruleFiles w = first :: rest →
  posted (_saveToAllFiles content w).2 = posted w ++ [saveResults results] →
  SaveResult.success <$> results !! 0 = Some true →
  fs_statSync (disk (_saveToAllFiles content w).2) (path_join base first) = inr stats →
  fs_readFileSync (disk (_saveToAllFiles content w).2) (path_join base first) = inr text →
  ∃ files,
    posted (_loadContent (_saveToAllFiles content w).2).2 =
    posted (_saveToAllFiles content w).2 ++ [loadContent content files].
Proof.
  intros Hbase Hfiles. rewrite (saveToAllFiles_attempts base) by done.
  rewrite Hfiles. cbn [attempts].
  pose proof (attempt_done base content first (disk w)) as Hfirst.
  pose proof (attempt_dated base content first (disk w)) as Hfresh.
  destruct (attempt base content first (disk w)) as [[d1 r] cs].
  pose proof (attempts_keep base content rest d1 (path_join base first)) as Hkeep.
  pose proof (attempts_keep_date base content rest d1 (path_join base first)) as Hdated.
  destruct (attempts base content rest d1) as [[d2 rs] cs'].
  cbn [fst snd] in Hfirst, Hfresh, Hkeep, Hdated.
  cbn. intros [= <-]%app_inv_head Hr Hstat Hread. cbn in Hr.
  injection Hr as Hr. apply result_of_success in Hr.
  specialize (Hkeep (Hfirst Hr)).
  destruct (Hdated (Hfresh Hr) stats Hstat) as [lastModified Hdate].
  pose proof (read_content _ _ _ Hread) as Htext.
  rewrite Hkeep in Htext. injection Htext as <-.
  rewrite (loadContent_scan base) by done. cbn [ruleFiles disk post show advance].
  rewrite Hfiles.
  assert (winner d2 (path_join base first) = Some (lastModified, content)) as Hwin
    by (unfold winner; by rewrite (content_exists _ _ _ Hkeep), Hstat, Hread, Hdate).
  pose proof (scan_stops base d2 [] first rest lastModified content
                ltac:(by intros q ?%elem_of_nil) Hwin) as Hscan.
  cbn [app] in Hscan. rewrite Hscan. by eexists.
Qed.

End RoundTrip.

End Laws.

End Properties.

(** ** The in-memory Node keeps [NodeLaws] *)

Lemma memfs_file_at (d : MemFs.t) p data :
  MemFs.fileContent d p = Some data →
  MemFs.is_root p = false ∧
  ∃ modified readable writable,
    MemFs.nodes d !! p = Some (MemFs.File data modified readable writable).
Proof.
  unfold MemFs.fileContent, MemFs.node_at.
  destruct (MemFs.is_root p); [done|].
  destruct (MemFs.nodes d !! p) as [[c m r x|m]|]; [|done..].
  intros [= ->]. eauto.
Qed.

Lemma memfs_node_not_root (d : MemFs.t) p :
  (∀ m, MemFs.node_at d p ≠ Some (MemFs.Dir m)) → MemFs.is_root p = false.
Proof.
  unfold MemFs.node_at. destruct (MemFs.is_root p); [|done].
  intros H. by destruct (H 0%Z).
Qed.

Lemma memfs_write_done (d : MemFs.t) p data d' :
  MemFs.writeFileSync d p data = (d', None) → MemFs.fileContent d' p = Some data.
Proof.
  unfold MemFs.writeFileSync.
  destruct (MemFs.node_at d (MemFs.dirname p)) as [[? ? ? ?|?]|]; [done| |done].
  destruct (MemFs.node_at d p) as [[c m r [|]|m]|] eqn:Hp; [|done..|];
    intros [= <-]; unfold MemFs.fileContent, MemFs.node_at; cbn;
    rewrite (memfs_node_not_root d p) by (by rewrite Hp);
    by rewrite lookup_insert_eq.
Qed.

Lemma memfs_write_keeps (d : MemFs.t) q data p :
  MemFs.fileContent d p = Some data →
  MemFs.fileContent (MemFs.writeFileSync d q data).1 p = Some data.
Proof.
  intros Hp. destruct (memfs_file_at d p data Hp) as (Hroot & m & r & x & Hnode).
  unfold MemFs.writeFileSync.
  destruct (MemFs.node_at d (MemFs.dirname q)) as [[? ? ? ?|?]|]; [done| |done].
  destruct (MemFs.node_at d q) as [[c' m' r' [|]|m']|]; [|done..|];
    unfold MemFs.fileContent, MemFs.node_at; cbn; rewrite Hroot;
    (destruct (decide (q = p)) as [->|Hne];
     [by rewrite lookup_insert_eq|by rewrite lookup_insert_ne, Hnode]).
Qed.

Lemma memfs_mkdir_p_keeps fuel (d : MemFs.t) q data p :
  MemFs.fileContent d p = Some data →
  MemFs.fileContent (MemFs.mkdir_p fuel d q).1 p = Some data.
Proof.
  revert d q. induction fuel as [|fuel IH]; intros d q Hp; cbn [MemFs.mkdir_p];
    destruct (MemFs.node_at d q) as [[? ? ? ?|?]|] eqn:Hq; try done.
  specialize (IH d (MemFs.dirname q) Hp).
  destruct (MemFs.mkdir_p fuel d (MemFs.dirname q)) as [d' [e|]]; [done|].
  cbn [fst] in IH.
  destruct (MemFs.node_at d' (MemFs.dirname q)) as [[? ? ? ?|?]|]; [done| |done].
  destruct (memfs_file_at d' p data IH) as (Hroot & m & r & x & Hnode).
  unfold MemFs.fileContent, MemFs.node_at. cbn. rewrite Hroot.
  destruct (decide (q = p)) as [->|Hne]; [|by rewrite lookup_insert_ne, Hnode].
  unfold MemFs.fileContent in Hp. by rewrite Hq in Hp.
Qed.

Lemma memfs_time_valid (d : MemFs.t) : MemFs.valid_time (MemFs.time d).
Proof. unfold MemFs.valid_time, MemFs.time, MemFs.max_time. lia. Qed.

Lemma memfs_dated_iff (d : MemFs.t) p :
  dated d p ↔ ∀ n, MemFs.node_at d p = Some n → MemFs.valid_time (MemFs.node_time n).
Proof.
  unfold dated. cbn. unfold MemFs.statSync, MemFs.toISOString. split.
  - intros Hd n Hn. rewrite Hn in Hd.
    destruct n as [c m r x|m]; cbn;
      (destruct (Hd {| mtime := m |} eq_refl) as [text Htext]; cbn in Htext;
       by destruct (decide (MemFs.valid_time m))).
  - intros Hn stats. destruct (MemFs.node_at d p) as [[c m r x|m]|]; [| |done];
      intros [= <-]; cbn; specialize (Hn _ eq_refl); cbn in Hn;
      rewrite decide_True by done; by eexists.
Qed.

Lemma memfs_node_at_insert (d : MemFs.t) q n c p :
  MemFs.node_at (MemFs.mk (<[q := n]> (MemFs.nodes d)) c) p =
  if MemFs.is_root p then Some (MemFs.Dir 0)
  else if decide (q = p) then Some n else MemFs.nodes d !! p.
Proof.
  unfold MemFs.node_at. cbn. destruct (MemFs.is_root p); [done|].
  destruct (decide (q = p)) as [->|Hne];
    [by rewrite lookup_insert_eq|by rewrite lookup_insert_ne].
Qed.

Lemma memfs_insert_dated (d : MemFs.t) q n c p :
  MemFs.valid_time (MemFs.node_time n) →
  dated d p → dated (MemFs.mk (<[q := n]> (MemFs.nodes d)) c) p.
Proof.
  rewrite !memfs_dated_iff. intros Hn Hp n'. rewrite memfs_node_at_insert.
  specialize (Hp n'). unfold MemFs.node_at in Hp.
  destruct (MemFs.is_root p); [done|].
  destruct (decide (q = p)); [by intros [= <-]|done].
Qed.

Lemma memfs_write_dated (d : MemFs.t) p data d' :
  MemFs.writeFileSync d p data = (d', None) → dated d' p.
Proof.
  unfold MemFs.writeFileSync.
  destruct (MemFs.node_at d (MemFs.dirname p)) as [[? ? ? ?|?]|]; [done| |done].
  destruct (MemFs.node_at d p) as [[c m r [|]|m]|] eqn:Hp; [|done..|];
    intros [= <-]; apply memfs_dated_iff; intros n; rewrite memfs_node_at_insert;
    rewrite (memfs_node_not_root d p) by (by rewrite Hp);
    rewrite decide_True by done; intros [= <-]; apply memfs_time_valid.
Qed.

Lemma memfs_write_keeps_date (d : MemFs.t) q data p :
  dated d p → dated (MemFs.writeFileSync d q data).1 p.
Proof.
  intros Hp. unfold MemFs.writeFileSync.
  destruct (MemFs.node_at d (MemFs.dirname q)) as [[? ? ? ?|?]|]; [done| |done].
  destruct (MemFs.node_at d q) as [[c' m' r' [|]|m']|]; [|done..|];
    cbn; (apply memfs_insert_dated; [apply memfs_time_valid|done]).
Qed.

Lemma memfs_mkdir_p_keeps_date fuel (d : MemFs.t) q p :
  dated d p → dated (MemFs.mkdir_p fuel d q).1 p.
Proof.
  revert d q. induction fuel as [|fuel IH]; intros d q Hp; cbn [MemFs.mkdir_p];
    destruct (MemFs.node_at d q) as [[? ? ? ?|?]|] eqn:Hq; try done.
  specialize (IH d (MemFs.dirname q) Hp).
  destruct (MemFs.mkdir_p fuel d (MemFs.dirname q)) as [d' [e|]]; [done|].
  cbn [fst] in IH.
  destruct (MemFs.node_at d' (MemFs.dirname q)) as [[? ? ? ?|?]|]; [done| |done].
  cbn. apply memfs_insert_dated; [apply memfs_time_valid|done].
Qed.

#[global] Instance memfs_laws : NodeLaws MemFs.t.
Proof.
  split; cbn.
  - apply memfs_write_done.
  - apply memfs_write_keeps.
  - intros d q data p. apply memfs_mkdir_p_keeps.
  - intros d p data Hp. unfold MemFs.fileContent, MemFs.existsSync in *.
    by destruct (MemFs.node_at d p).
  - intros d p data. unfold MemFs.readFileSync, MemFs.fileContent.
    destruct (MemFs.node_at d p) as [[c m [|] x|m]|]; try done. by intros [= ->].
Qed.

#[global] Instance memfs_dates : DateLaws MemFs.t.
Proof.
  split; cbn.
  - apply memfs_write_dated.
  - apply memfs_write_keeps_date.
  - intros d q p. apply memfs_mkdir_p_keeps_date.
Qed.

(** ** The in-memory Node at work *)

Example join_normalizes :
  MemFs.join "/ws" ".cursor/rules/project-rules.mdc" = "/ws/.cursor/rules/project-rules.mdc"
  ∧ MemFs.join "/ws" "docs//./a/../AGENTS.md" = "/ws/docs/AGENTS.md"
  ∧ MemFs.join "/ws" "" = "/ws".
Proof. by vm_compute. Qed.

Example dirname_of_paths :
  MemFs.dirname "/ws/.cursor/rules/project-rules.mdc" = "/ws/.cursor/rules"
  ∧ MemFs.dirname "/ws/AGENTS.md" = "/ws"
  ∧ MemFs.dirname "/ws" = "/"
  ∧ MemFs.dirname "AGENTS.md" = ".".
Proof. by vm_compute. Qed.

Example toISOString_of_dates :
  MemFs.toISOString 0 = inr "1970-01-01T00:00:00.000Z"
  ∧ MemFs.toISOString 951782400000 = inr "2000-02-29T00:00:00.000Z"
  ∧ MemFs.toISOString MemFs.now = inr "2025-11-03T01:04:05.123Z"
  ∧ MemFs.toISOString (-62167219200000) = inr "0000-01-01T00:00:00.000Z"
  ∧ MemFs.toISOString (-62198755200000) = inr "-000001-01-01T00:00:00.000Z"
  ∧ MemFs.toISOString 8640000000000000 = inr "+275760-09-13T00:00:00.000Z"
  ∧ MemFs.toISOString (-8640000000000000) = inr "-271821-04-20T00:00:00.000Z"
  ∧ MemFs.toISOString 8640000000000001 = inl (ErrorObj "Invalid time value").
Proof. by vm_compute. Qed.

(** [mkdirSync] makes the whole chain. *)
Example mkdirSync_makes_chain :
  let d := (MemFs.mkdirSync MemFs.empty_workspace "/ws/.cursor/rules").1 in
  (MemFs.mkdirSync MemFs.empty_workspace "/ws/.cursor/rules").2 = None
  ∧ MemFs.node_at d "/ws/.cursor" = Some (MemFs.Dir MemFs.now)
  ∧ MemFs.node_at d "/ws/.cursor/rules" = Some (MemFs.Dir (MemFs.now + 1)).
Proof. by vm_compute. Qed.

(** A save into an empty workspace, as the window and the webview see it. *)
Example save_into_empty_workspace :
  shown (_saveToAllFiles "rules" MemFs.fresh).2 =
  [InformationMessage "Successfully saved to 6 file(s)"]
  ∧ calls (_saveToAllFiles "rules" MemFs.fresh).2 =
    [ExistsSync "/ws"; WriteFileSync "/ws/AGENTS.md" "rules" "utf8";
     ExistsSync "/ws"; WriteFileSync "/ws/Claude.md" "rules" "utf8";
     ExistsSync "/ws/.cursor/rules"; MkdirSync "/ws/.cursor/rules" true;
     WriteFileSync "/ws/.cursor/rules/project-rules.mdc" "rules" "utf8";
     ExistsSync "/ws/.github"; MkdirSync "/ws/.github" true;
     WriteFileSync "/ws/.github/copilot-instructions.md" "rules" "utf8";
     ExistsSync "/ws/.roo/rules"; MkdirSync "/ws/.roo/rules" true;
     WriteFileSync "/ws/.roo/rules/rules.md" "rules" "utf8";
     ExistsSync "/ws"; WriteFileSync "/ws/.windsurfrules" "rules" "utf8"].
Proof. by vm_compute. Qed.

(** A save that fails on one of two files. *)
Example save_with_a_failure :
  shown (_saveToAllFiles "new" MemFs.write_only).2 =
  [ErrorMessage
     ("Saved to 1 file(s), failed to save 1 file(s):" +:+ newline
      +:+ "Claude.md: EACCES: permission denied, open '/ws/Claude.md'")].
Proof. by vm_compute. Qed.

(** Claim C1, which the code breaks: with [AGENTS.md] missing and
    [Claude.md] present, the first loop pushes an entry for both paths,
    and the second loop, which starts at index 1 wherever the first one
    stopped, pushes another entry for [Claude.md]: three statuses for two
    paths. *)
Theorem loadContent_repeats_status :
  posted (_loadContent MemFs.second_wins).2 =
  [loadContent "rules"
     [FileStatus.mk "AGENTS.md" false None;
      FileStatus.mk "Claude.md" true (Some "2025-11-03T01:03:21.000Z");
      FileStatus.mk "Claude.md" true (Some "2025-11-03T01:03:21.000Z")]].
Proof. vm_compute. reflexivity. Qed.

Lemma loadContent_nothing_to_load_witness :
  _loadContent MemFs.no_folder = (Normal (), post (loadContent "" []) MemFs.no_folder)
  ∧ _loadContent MemFs.no_files = (Normal (), post (loadContent "" []) MemFs.no_files).
Proof.
  split.
  - apply loadContent_nothing_to_load. left. reflexivity.
  - apply loadContent_nothing_to_load. right. reflexivity.
Defined.

Lemma loadContent_nothing_exists_witness :
  ∃ files,
    (_loadContent MemFs.fresh).1 = Normal () ∧
    posted (_loadContent MemFs.fresh).2 = posted MemFs.fresh ++ [loadContent "" files] ∧
    Forall (λ st, FileStatus.exists_ st = false) files.
Proof.
  apply loadContent_nothing_exists.
  intros base p [= <-] Hp. cbn in Hp.
  repeat (apply elem_of_cons in Hp as [->|Hp]; [vm_compute; reflexivity|]).
  by apply elem_of_nil in Hp.
Defined.



(** What is posted there: the content of [Claude.md], and [AGENTS.md]
    shown as missing. *)
Example undated_first_posted :
  posted (_loadContent MemFs.undated).2 =
  [loadContent "claude"
     [FileStatus.mk "AGENTS.md" false None;
      FileStatus.mk "Claude.md" true (Some "2025-11-03T01:03:21.000Z");
      FileStatus.mk "Claude.md" true (Some "2025-11-03T01:03:21.000Z")]].
Proof. vm_compute. reflexivity. Qed.

(** [AGENTS.md] exists and cannot be read, [GEMINI.md] is missing: the
    first loop and the second loop give them the entry of a missing path. *)
Lemma loadContent_hides_failures_witness :
  ∃ content scanned passed,
    posted (_loadContent MemFs.hidden).2 =
    posted MemFs.hidden ++ [loadContent content (scanned ++ passed)] ∧
    shown (_loadContent MemFs.hidden).2 = [] ∧
    fs_existsSync (disk MemFs.hidden) "/ws/AGENTS.md" = true ∧
    scanned !! 0 = Some (FileStatus.mk "AGENTS.md" false None) ∧
    passed !! 1 = Some (FileStatus.mk "GEMINI.md" false None).
Proof.
  destruct (loadContent_hides_failures MemFs.hidden "/ws" eq_refl)
    as (content & scanned & passed & _ & Hposted & Hshown & _ & Hscan & Hpass).
  exists content, scanned, passed. split; [exact Hposted|].
  split; [exact Hshown|]. split; [vm_compute; reflexivity|]. split.
  - apply (Hscan 0 "AGENTS.md").
    + reflexivity.
    + intros q Hq. by apply elem_of_nil in Hq.
    + vm_compute. reflexivity.
  - apply (Hpass 1 "GEMINI.md" (MemFs.enoent "stat" "/ws/GEMINI.md")).
    + reflexivity.
    + vm_compute. reflexivity.
Defined.

(** Claim C6 as it stands fails: [Claude.md] exists and cannot be read,
    and is reported with [exists] true, by the second loop, which never
    reads. *)
Lemma unreadable_reported_as_existing :
  ¬ (∀ (w : world MemFs.t) base p e content files,
       workspaceFolder w = Some base →
       p ∈ ruleFiles w →
       fs_existsSync (disk w) (path_join base p) = true →
       fs_readFileSync (disk w) (path_join base p) = inl e →
       posted (_loadContent w).2 = posted w ++ [loadContent content files] →
       ∀ st, st ∈ files → FileStatus.file st = p → FileStatus.exists_ st = false).
Proof.
  intros Hclaim.
  specialize (Hclaim MemFs.unreadable "/ws" "Claude.md"
                (MemFs.eacces "open" "/ws/Claude.md") "rules"
                [FileStatus.mk "AGENTS.md" true (Some "2025-11-03T01:03:22.000Z");
                 FileStatus.mk "Claude.md" true (Some "2025-11-03T01:03:21.000Z")]).
  specialize (Hclaim eq_refl).
  specialize (Hclaim ltac:(cbn; apply elem_of_cons; right; apply elem_of_cons; by left)).
  specialize (Hclaim ltac:(vm_compute; reflexivity) ltac:(vm_compute; reflexivity)
                ltac:(vm_compute; reflexivity)).
  specialize (Hclaim (FileStatus.mk "Claude.md" true (Some "2025-11-03T01:03:21.000Z"))).
  specialize (Hclaim ltac:(apply elem_of_cons; right; apply elem_of_cons; by left) eq_refl).
  discriminate Hclaim.
Qed.

Lemma saveToAllFiles_no_folder_witness :
  _saveToAllFiles "rules" MemFs.no_folder =
  (Normal (), show (ErrorMessage "No workspace folder found") MemFs.no_folder).
Proof. apply saveToAllFiles_no_folder. reflexivity. Defined.

Lemma saveToAllFiles_no_files_witness :
  _saveToAllFiles "rules" MemFs.no_files =
  (Normal (),
   post (saveResults [])
     (show (InformationMessage "Successfully saved to 0 file(s)") MemFs.no_files)).
Proof. apply (saveToAllFiles_no_files MemFs.no_files "/ws"); reflexivity. Defined.

(** On the disk of [write_only], the second path fails and both paths have
    their result. *)
Lemma saveToAllFiles_reports_each_path_witness :
  ∃ results,
    posted (_saveToAllFiles "new" MemFs.write_only).2 = [saveResults results] ∧
    SaveResult.file <$> results = ["AGENTS.md"; "Claude.md"] ∧
    results !! 0 = Some (SaveResult.mk "AGENTS.md" true None) ∧
    results !! 1 =
    Some (SaveResult.mk "Claude.md" false
            (Some "EACCES: permission denied, open '/ws/Claude.md'")).
Proof.
  destruct (saveToAllFiles_reports_each_path MemFs.write_only "/ws" "new" eq_refl)
    as (results & _ & Hposted & Hfiles & Hresults & _ & _).
  exists results. split; [exact Hposted|]. split; [exact Hfiles|]. split.
  - rewrite (Hresults 0 "AGENTS.md" eq_refl). vm_compute. reflexivity.
  - rewrite (Hresults 1 "Claude.md" eq_refl). vm_compute. reflexivity.
Defined.

(** In an empty workspace the default list is saved with three calls of
    [mkdirSync], and every file then holds the content. *)
Lemma saveToAllFiles_creates_and_replaces_witness :
  calls (save_turn "/ws" "rules" ".cursor/rules/project-rules.mdc" [] MemFs.fresh).2 =
  [ExistsSync "/ws/.cursor/rules"; MkdirSync "/ws/.cursor/rules" true;
   WriteFileSync "/ws/.cursor/rules/project-rules.mdc" "rules" "utf8"]
  ∧ ∀ p, p ∈ MemFs.default_ruleFiles →
      fs_existsSync (disk (_saveToAllFiles "rules" MemFs.fresh).2) (path_join "/ws" p)
      = true ∧
      fs_fileContent (disk (_saveToAllFiles "rules" MemFs.fresh).2) (path_join "/ws" p)
      = Some "rules".
Proof.
  destruct (saveToAllFiles_creates_and_replaces MemFs.fresh "/ws" "rules" eq_refl)
    as [Hturn Hall].
  split.
  - apply (Hturn ".cursor/rules/project-rules.mdc" [] MemFs.fresh);
      vm_compute; reflexivity.
  - eapply Hall.
    + vm_compute. reflexivity.
    + repeat constructor.
Defined.

Lemma save_then_load_witness :
  ∃ files,
    posted (_loadContent (_saveToAllFiles "rules" MemFs.fresh).2).2 =
    posted (_saveToAllFiles "rules" MemFs.fresh).2 ++ [loadContent "rules" files].
Proof.
  eapply (save_then_load MemFs.fresh "/ws" "rules" "AGENTS.md" _ _ _ "rules").
  - reflexivity.
  - reflexivity.
  - vm_compute. reflexivity.
  - reflexivity.
  - vm_compute. reflexivity.
  - vm_compute. reflexivity.
Defined.

(** Claim C4 as it stands fails: the write to the first path succeeds, but
    the file cannot be read back; [_loadContent] passes over it and posts
    what the second file held before the save, which could not replace
    it. *)
Lemma roundtrip_lost_on_write_only_file :
  ¬ (∀ (w : world MemFs.t) base content first rest results,
       workspaceFolder w = Some base →
       ruleFiles w = first :: rest →
       posted (_saveToAllFiles content w).2 = posted w ++ [saveResults results] →
       SaveResult.success <$> results !! 0 = Some true →
       ∃ files,
         posted (_loadContent (_saveToAllFiles content w).2).2 =
         posted (_saveToAllFiles content w).2 ++ [loadContent content files]).
Proof.
  intros Hclaim.
  destruct (Hclaim MemFs.write_only "/ws" "new" "AGENTS.md" ["Claude.md"]
              [SaveResult.mk "AGENTS.md" true None;
               SaveResult.mk "Claude.md" false
                 (Some "EACCES: permission denied, open '/ws/Claude.md'")]
              eq_refl eq_refl ltac:(vm_compute; reflexivity) eq_refl)
    as [files Hfiles].
  vm_compute in Hfiles. discriminate Hfiles.
Qed.

(** * Beyond the two methods *)

(** ** The commands *)

Lemma filter_other_id (p : string) (l : list string) :
  p ∉ l → filter (λ file, file ≠ p) l = l.
Proof.
  induction l as [|q l IH]; intros Hp; [done|].
  apply not_elem_of_cons in Hp as [Hne Hp].
  rewrite filter_cons_True by done. by rewrite IH.
Qed.

(** [addRuleFile] never makes a duplicate: a list without repetitions
    stays without, whatever the user types and whether or not the update
    goes through. *)
Theorem addRuleFile_keeps_NoDup input rejection s :
  NoDup (setting_ruleFiles s) →
  NoDup (setting_ruleFiles (addRuleFile input rejection s).2).
Proof.
  intros Hnodup. unfold addRuleFile.
  destruct (truthy input) as [p|]; [|done].
  destruct (decide (p ∈ setting_ruleFiles s)) as [Hin|Hout]; [done|].
  destruct rejection as [e|]; [done|]. cbn.
  apply NoDup_app. split_and!; [done| |apply NoDup_singleton].
  intros q Hq ->%list_elem_of_singleton. done.
Qed.

(** After an [addRuleFile] that returns, the path typed is in the list,
    and the files that were there are still there, at the same indices:
    a new file comes last in the order of priority. *)
Theorem addRuleFile_adds_last input rejection s p :
  truthy input = Some p →
  (addRuleFile input rejection s).1 = Normal () →
  p ∈ setting_ruleFiles (addRuleFile input rejection s).2 ∧
  (setting_ruleFiles s `prefix_of` setting_ruleFiles (addRuleFile input rejection s).2) ∧
  (length (setting_ruleFiles (addRuleFile input rejection s).2)
   ≤ S (length (setting_ruleFiles s)))%nat.
Proof.
  intros Hp. unfold addRuleFile. rewrite Hp.
  destruct (decide (p ∈ setting_ruleFiles s)) as [Hin|Hout].
  - intros _. cbn. split_and!; [done|done|lia].
  - destruct rejection as [e|]; [done|]. intros _. cbn. split_and!.
    + apply elem_of_app. right. by apply list_elem_of_singleton.
    + by apply prefix_app_r.
    + rewrite length_app. cbn. lia.
Qed.

(** Adding the same path again changes nothing in the setting: the
    second run only warns, and returns even when an update would be
    rejected. *)
Theorem addRuleFile_again input rejection rejection' s p :
  truthy input = Some p →
  (addRuleFile input rejection s).1 = Normal () →
  addRuleFile input rejection' (addRuleFile input rejection s).2 =
  (Normal (),
   show_toast (WarningToast (p +:+ " is already in agent rule files"))
     (addRuleFile input rejection s).2).
Proof.
  intros Hp. unfold addRuleFile. rewrite Hp.
  destruct (decide (p ∈ setting_ruleFiles s)) as [Hin|Hout].
  - intros _. cbn. by rewrite decide_True.
  - destruct rejection as [e|]; [done|]. intros _. cbn.
    rewrite decide_True; [done|].
    apply elem_of_app. right. by apply list_elem_of_singleton.
Qed.

(** After a [removeRuleFile] that returns with a choice made, the chosen
    path is gone from the list, every occurrence of it; the other files
    are all kept, in their order. *)
Theorem removeRuleFile_removes pick rejection s p :
  truthy (pick (setting_ruleFiles s)) = Some p →
  (removeRuleFile pick rejection s).1 = Normal () →
  (p ∉ setting_ruleFiles (removeRuleFile pick rejection s).2) ∧
  (setting_ruleFiles (removeRuleFile pick rejection s).2
   `sublist_of` setting_ruleFiles s) ∧
  (∀ q, q ≠ p → q ∈ setting_ruleFiles s →
        q ∈ setting_ruleFiles (removeRuleFile pick rejection s).2).
Proof.
  intros Hp. unfold removeRuleFile.
  destruct (decide (length (setting_ruleFiles s) = 0)) as [Hempty|Hfull].
  - intros _. cbn. apply nil_length_inv in Hempty. rewrite Hempty.
    split_and!; [apply not_elem_of_nil|done|done].
  - rewrite Hp. destruct rejection as [e|]; [done|]. intros _. cbn. split_and!.
    + intros [Hne _]%list_elem_of_filter. done.
    + apply sublist_filter.
    + intros q Hne Hq. by apply list_elem_of_filter.
Qed.

(** Adding a path that was not in the list and then removing it gives the
    list back. *)
Theorem add_then_remove pick p s :
  p ≠ "" →
  p ∉ setting_ruleFiles s →
  pick (setting_ruleFiles s ++ [p]) = Some p →
  setting_ruleFiles
    (removeRuleFile pick None (addRuleFile (Some p) None s).2).2
  = setting_ruleFiles s.
Proof.
  intros Hne Hout Hpick. unfold addRuleFile, truthy.
  rewrite decide_False by done. rewrite decide_False by done. cbn.
  unfold removeRuleFile. cbn.
  rewrite decide_False by (rewrite length_app; cbn; lia).
  rewrite Hpick. cbn. rewrite decide_False by done. cbn.
  rewrite filter_app, filter_other_id by done.
  rewrite filter_cons_False by (intros H; by apply H).
  by rewrite filter_nil, app_nil_r.
Qed.

(** Removing a file of a list without repetitions and adding it again
    moves it to the end: it loses its priority. *)
Theorem remove_then_add pick p s :
  p ≠ "" →
  NoDup (setting_ruleFiles s) →
  p ∈ setting_ruleFiles s →
  pick (setting_ruleFiles s) = Some p →
  ∃ before after,
    setting_ruleFiles s = before ++ p :: after ∧
    setting_ruleFiles
      (addRuleFile (Some p) None (removeRuleFile pick None s).2).2
    = before ++ after ++ [p].
Proof.
  intros Hne Hnodup Hin Hpick.
  apply list_elem_of_split in Hin as (before & after & Hsplit).
  exists before, after. split; [done|].
  rewrite Hsplit in Hnodup. apply NoDup_app in Hnodup as (_ & Hbefore & Hafter).
  apply NoDup_cons in Hafter as [Hafter _].
  assert (p ∉ before) as Hb by (intros H; apply (Hbefore p H); by left).
  unfold removeRuleFile. rewrite Hpick, Hsplit.
  rewrite decide_False by (rewrite length_app; cbn; lia).
  unfold truthy. rewrite decide_False by done. cbn.
  rewrite filter_app, filter_cons_False by (intros H; by apply H).
  rewrite !filter_other_id by done.
  unfold addRuleFile, truthy. rewrite decide_False by done. cbn.
  rewrite decide_False.
  - cbn. by rewrite <- app_assoc.
  - intros [H|H]%elem_of_app; done.
Qed.

(** ** More on the two methods *)

Section Methods.

Context {FS : Type} `{Node : NodeEnv FS}.

Implicit Types (w : world FS) (d : FS) (l : list string).

#[local] Existing Instances M_ret M_bind block_ret block_bind.

Lemma attempts_app base content l1 l2 d :
  attempts base content (l1 ++ l2) d =
  let '(d1, r1, c1) := attempts base content l1 d in
  let '(d2, r2, c2) := attempts base content l2 d1 in
  (d2, r1 ++ r2, c1 ++ c2).
Proof.
  revert d. induction l1 as [|p l1 IH]; intros d.
  - cbn. by destruct (attempts base content l2 d) as [[d2 r2] c2].
  - cbn [app attempts]. destruct (attempt base content p d) as [[d0 r] cs].
    rewrite IH. destruct (attempts base content l1 d0) as [[d1 r1] c1].
    destruct (attempts base content l2 d1) as [[d2 r2] c2].
    by rewrite app_assoc.
Qed.

(** Saving a list is saving its first part and then the rest, on the disk
    the first part has left: the results and the calls are those of the
    two saves one after the other, and the disk at the end is the same. *)
Theorem saveToAllFiles_in_two_parts base content l1 l2 w :
  workspaceFolder w = Some base →
  ruleFiles w = l1 ++ l2 →
  ∃ w1 w2 r1 r2,
    w1 = (_saveToAllFiles content (World (Some base) l1 (disk w) [] [] [])).2 ∧
    w2 = (_saveToAllFiles content (World (Some base) l2 (disk w1) [] [] [])).2 ∧
    posted w1 = [saveResults r1] ∧
    posted w2 = [saveResults r2] ∧
    posted (_saveToAllFiles content w).2 = posted w ++ [saveResults (r1 ++ r2)] ∧
    calls (_saveToAllFiles content w).2 = calls w ++ calls w1 ++ calls w2 ∧
    disk (_saveToAllFiles content w).2 = disk w2.
Proof.
  intros Hbase Hfiles.
  eexists _, _, (attempts base content l1 (disk w)).1.2,
    (attempts base content l2 (attempts base content l1 (disk w)).1.1).1.2.
  split; [reflexivity|]. split; [reflexivity|].
  rewrite (saveToAllFiles_attempts base content w) by done.
  rewrite Hfiles, attempts_app.
  rewrite (saveToAllFiles_attempts base content (World (Some base) l1 (disk w) [] [] []))
    by done.
  cbn [ruleFiles disk].
  destruct (attempts base content l1 (disk w)) as [[d1 r1] c1].
  cbn [fst snd disk post show advance].
  rewrite (saveToAllFiles_attempts base content (World (Some base) l2 d1 [] [] []))
    by done.
  cbn [ruleFiles disk].
  by destruct (attempts base content l2 d1) as [[d2 r2] c2].
Qed.

Lemma scan_calls_reading d x : Forall reading (scan_calls d x).
Proof.
  unfold scan_calls. destruct (fs_existsSync d x); [destruct (fs_statSync d x)|];
    repeat constructor; exists x; auto.
Qed.

Lemma scan_reading base d l : Forall reading (scan base d l).2.
Proof.
  induction l as [|p l IH]; cbn [scan]; [constructor|].
  destruct (winner d (path_join base p)) as [[stats content]|].
  - apply scan_calls_reading.
  - destruct (scan base d l) as [[found sts] cs]. cbn in *.
    apply Forall_app. split; [apply scan_calls_reading|done].
Qed.

Lemma status_reading base d l : Forall reading (l ≫= status_calls base d).
Proof.
  induction l as [|p l IH]; [constructor|].
  cbn. apply Forall_app. split; [|done].
  unfold status_calls. destruct (fs_existsSync d _); repeat constructor; eexists; auto.
Qed.

(** [_loadContent] only looks: it returns normally, posts one message,
    shows nothing, and leaves the disk and the settings as they are; its
    calls into [fs] are [existsSync], [statSync] and [readFileSync] with
    [utf8]. *)
Theorem loadContent_only_reads w :
  ∃ content files new_calls,
    _loadContent w =
    (Normal (),
     World (workspaceFolder w) (ruleFiles w) (disk w) (calls w ++ new_calls)
       (shown w) (posted w ++ [loadContent content files])) ∧
    Forall reading new_calls.
Proof.
  destruct (workspaceFolder w) as [base|] eqn:Hbase.
  - rewrite (loadContent_scan base) by done.
    pose proof (scan_reading base (disk w) (ruleFiles w)) as Hscan.
    destruct (scan base (disk w) (ruleFiles w)) as [[found scanned] cs].
    eexists _, _, _. split.
    + unfold post, advance. cbn. by rewrite Hbase.
    + apply Forall_app. split; [done|apply status_reading].
  - exists "", [], []. split; [|constructor].
    unfold _loadContent, get_ruleFiles, get_workspaceFolder, mbind, M_bind.
    rewrite Hbase. unfold postMessage, post. by rewrite app_nil_r, Hbase.
Qed.

Lemma attempt_writing base content p d : Forall (writing content) (attempt base content p d).2.
Proof.
  unfold attempt. destruct (fs_existsSync d _).
  - destruct (fs_writeFileSync d _ content) as [d1 r].
    repeat constructor; eexists; auto.
  - destruct (fs_mkdirSync d _) as [d1 [e|]]; [repeat constructor; eexists; auto|].
    destruct (fs_writeFileSync d1 _ content) as [d2 r].
    repeat constructor; eexists; auto.
Qed.

Lemma attempts_writing base content l d :
  Forall (writing content) (attempts base content l d).2.
Proof.
  revert d. induction l as [|p l IH]; intros d; cbn [attempts]; [constructor|].
  pose proof (attempt_writing base content p d) as Hp.
  destruct (attempt base content p d) as [[d1 r] cs]. specialize (IH d1).
  destruct (attempts base content l d1) as [[d2 rs] cs']. cbn in *.
  by apply Forall_app.
Qed.

(** [_saveToAllFiles] lets no exception out: it returns normally on every
    disk, shows exactly one notification and posts at most one message,
    none only without a workspace folder.  It never reads a file, makes
    directories only with [recursive], and writes nothing but the content
    it was given, as [utf8]. *)
Theorem saveToAllFiles_always_returns content w :
  ∃ d new_calls note posts,
    _saveToAllFiles content w =
    (Normal (),
     World (workspaceFolder w) (ruleFiles w) d (calls w ++ new_calls)
       (shown w ++ [note]) (posted w ++ posts)) ∧
    Forall (writing content) new_calls ∧
    (workspaceFolder w = None → posts = [] ∧ new_calls = [] ∧ d = disk w) ∧
    (workspaceFolder w ≠ None → ∃ results, posts = [saveResults results]).
Proof.
  destruct (workspaceFolder w) as [base|] eqn:Hbase.
  - rewrite (saveToAllFiles_attempts base) by done.
    pose proof (attempts_writing base content (ruleFiles w) (disk w)) as Hcalls.
    destruct (attempts base content (ruleFiles w) (disk w)) as [[d1 rs] cs].
    eexists d1, cs, _, _. split_and!.
    + unfold post, show, advance. cbn. by rewrite Hbase.
    + done.
    + done.
    + intros _. by eexists.
  - eexists (disk w), [], _, []. split_and!.
    + unfold _saveToAllFiles, get_ruleFiles, get_workspaceFolder, mbind, M_bind.
      rewrite Hbase. unfold showErrorMessage, show. by rewrite !app_nil_r, Hbase.
    + constructor.
    + done.
    + done.
Qed.

Lemma filter_failed_nil (results : list SaveResult.t) :
  length (filter (λ r, SaveResult.success r = false) results) = 0 ↔
  Forall (λ r, SaveResult.success r = true) results.
Proof.
  induction results as [|r rs IH]; [by split; [constructor|]|].
  destruct (SaveResult.success r) eqn:Hr.
  - rewrite filter_cons_False by (by rewrite Hr). rewrite IH. split.
    + by constructor.
    + by intros [_ ?]%Forall_cons.
  - rewrite filter_cons_True by done. split; [done|].
    intros [H _]%Forall_cons. congruence.
Qed.

Lemma filter_successful_all (results : list SaveResult.t) :
  Forall (λ r, SaveResult.success r = true) results →
  filter (λ r, SaveResult.success r = true) results = results.
Proof.
  induction 1 as [|r rs Hr _ IH]; [done|].
  rewrite filter_cons_True by done. by rewrite IH.
Qed.

(** The notification of a save tells the truth: it is the information
    message, with the number of configured paths, exactly when every
    result is a success; otherwise it is an error message. *)
Theorem saveToAllFiles_summary base content w :
  workspaceFolder w = Some base →
  ∃ results,
    posted (_saveToAllFiles content w).2 = posted w ++ [saveResults results] ∧
    (Forall (λ r, SaveResult.success r = true) results →
     shown (_saveToAllFiles content w).2 =
     shown w ++ [InformationMessage
                   ("Successfully saved to " +:+ pretty (length (ruleFiles w))
                    +:+ " file(s)")]) ∧
    (¬ Forall (λ r, SaveResult.success r = true) results →
     ∃ text, shown (_saveToAllFiles content w).2 = shown w ++ [ErrorMessage text]).
Proof.
  intros Hbase. rewrite (saveToAllFiles_attempts base) by done.
  pose proof (attempts_files base content (ruleFiles w) (disk w)) as Hfiles.
  destruct (attempts base content (ruleFiles w) (disk w)) as [[d1 rs] cs].
  cbn [fst snd] in Hfiles.
  exists rs. split_and!; [done| |]; cbn; unfold summary.
  - intros Hall. rewrite decide_True by by apply filter_failed_nil.
    rewrite filter_successful_all by done.
    by rewrite <- Hfiles, length_fmap.
  - intros Hsome. rewrite decide_False by (by rewrite filter_failed_nil). by eexists.
Qed.

Lemma status_of_file base d p : FileStatus.file (status_of base d p) = p.
Proof.
  unfold status_of. destruct (fs_existsSync d _); [|done].
  destruct (fs_statSync d _) as [e|stats]; [done|].
  by destruct (date_toISOString (mtime stats)).
Qed.

Lemma status_files base d l : FileStatus.file <$> (status_of base d <$> l) = l.
Proof.
  induction l as [|p l IH]; [done|]. cbn. by rewrite status_of_file, IH.
Qed.

Lemma scan_cons base d p l :
  scan base d (p :: l) =
  match winner d (path_join base p) with
  | Some (lastModified, content) =>
      (Some content,
       [FileStatus.mk p true (Some lastModified)],
       scan_calls d (path_join base p))
  | None =>
      let '(found, sts, cs) := scan base d l in
      (match found with
       | Some content => Some content
       | None => assigned d (path_join base p)
       end,
       missing p :: sts, scan_calls d (path_join base p) ++ cs)
  end.
Proof. done. Qed.

(** When the statuses are right: [_loadContent] posts one status per
    configured path, in the order of the list, exactly when the list has
    at most one path or its first path is the one whose content is
    taken. *)
Theorem loadContent_one_status_each_iff base w content files :
  workspaceFolder w = Some base →
  posted (_loadContent w).2 = posted w ++ [loadContent content files] →
  FileStatus.file <$> files = ruleFiles w ↔
  (length (ruleFiles w) ≤ 1)%nat ∨
  ∃ first rest, ruleFiles w = first :: rest ∧
                winner (disk w) (path_join base first) ≠ None.
Proof.
  intros Hbase. rewrite (loadContent_scan base) by done.
  destruct (ruleFiles w) as [|p [|q r]] eqn:Hfiles.
  - cbn. intros [= <- <-]%app_inv_head. split; [left; lia|done].
  - cbn [scan drop].
    destruct (winner (disk w) (path_join base p)) as [[stats text]|];
      cbn; intros [= <- <-]%app_inv_head; (split; [left; lia|done]).
  - rewrite scan_cons. cbn [drop].
    destruct (winner (disk w) (path_join base p)) as [[stats text]|] eqn:Hp.
    + cbn. intros [= <- <-]%app_inv_head. cbn.
      rewrite status_of_file, status_files. split; [|done].
      intros _. right. exists p, (q :: r). by rewrite Hp.
    + destruct (scan base (disk w) (q :: r)) as [[found sts] cs] eqn:Hscan.
      assert (1 ≤ length sts)%nat as Hlen.
      { cbn [scan] in Hscan.
        destruct (winner (disk w) (path_join base q)) as [[stats text]|].
        - injection Hscan as <- <- <-. cbn. lia.
        - destruct (scan base (disk w) r) as [[found' sts'] cs'].
          injection Hscan as <- <- <-. cbn. lia. }
      cbn. intros [= <- <-]%app_inv_head. split.
      * intros Hnames. apply (f_equal length) in Hnames.
        rewrite length_fmap in Hnames. cbn in Hnames.
        rewrite length_app in Hnames. cbn in Hnames.
        rewrite length_fmap in Hnames. lia.
      * intros [Hle|(first & rest & [= <- <-] & Hwin)]; [cbn in Hle; lia|done].
Qed.

Section MethodsLaws.

Context `{!NodeLaws FS}.

(** A failure elsewhere does not undo a success: after a save, every path
    whose own result is a success exists and holds the content, whatever
    happened to the paths before and after it. *)
Theorem saved_file_survives base content w results i p :
  workspaceFolder w = Some base →
  posted (_saveToAllFiles content w).2 = posted w ++ [saveResults results] →
  ruleFiles w !! i = Some p →
  SaveResult.success <$> results !! i = Some true →
  fs_existsSync (disk (_saveToAllFiles content w).2) (path_join base p) = true ∧
  fs_fileContent (disk (_saveToAllFiles content w).2) (path_join base p) = Some content.
Proof.
  intros Hbase. rewrite (saveToAllFiles_attempts base) by done.
  intros Hposted Hi Hok.
  pose proof (attempts_lookup base content (ruleFiles w) (disk w) i p Hi) as Hlookup.
  unfold disk_before in Hlookup.
  assert (attempts base content (ruleFiles w) (disk w) =
          let '(d1, r1, c1) := attempts base content (take i (ruleFiles w)) (disk w) in
          let '(d2, r2, c2) :=
            attempts base content (p :: drop (S i) (ruleFiles w)) d1 in
          (d2, r1 ++ r2, c1 ++ c2)) as Happ
    by (by rewrite <- attempts_app, take_drop_middle).
  destruct (attempts base content (take i (ruleFiles w)) (disk w)) as [[d1 r1] c1].
  cbn [attempts fst snd] in Happ, Hlookup.
  pose proof (attempt_done base content p d1) as Hdone.
  destruct (attempt base content p d1) as [[d2 r] c2].
  pose proof (attempts_keep base content (drop (S i) (ruleFiles w)) d2 (path_join base p))
    as Hkeep.
  destruct (attempts base content (drop (S i) (ruleFiles w)) d2) as [[d3 r3] c3].
  rewrite Happ in Hposted, Hlookup |- *.
  cbn in Hposted, Hdone, Hkeep, Hlookup |- *.
  apply app_inv_head in Hposted. injection Hposted as <-.
  rewrite Hlookup in Hok. cbn in Hok. injection Hok as Hok.
  apply result_of_success in Hok.
  specialize (Hkeep (Hdone Hok)). eauto using content_exists.
Qed.

End MethodsLaws.

End Methods.

(** ** The page and the panel *)

Section Pages.

Context {FS : Type} `{Node : NodeEnv FS}.

Variable toLocaleString : string → string.

Implicit Types (w : world FS) (p : page).

#[local] Existing Instances M_ret M_bind block_ret block_bind.

(** Reading the text area and putting back what was read changes nothing
    of what is read. *)
Lemma normalize_newlines_again (after_cr : bool) (text : string) :
  normalize_newlines false (normalize_newlines after_cr text) =
  normalize_newlines after_cr text.
Proof.
  revert after_cr. induction text as [|c text IH]; intros after_cr; [done|].
  cbn [normalize_newlines].
  destruct (decide (c = Ascii.ascii_of_nat 13)) as [->|Hcr].
  - cbn. by rewrite IH.
  - destruct (decide (c = Ascii.ascii_of_nat 10)) as [->|Hlf].
    + destruct after_cr; [apply IH|]. cbn. by rewrite IH.
    + cbn [normalize_newlines]. rewrite !decide_False by done. by rewrite IH.
Qed.

Lemma fold_snoc_fmap {A B : Type} (f : A → B) (l : list A) (acc : list B) :
  fold_left (λ children x, children ++ [f x]) l acc = acc ++ (f <$> l).
Proof.
  revert acc. induction l as [|x l IH]; intros acc; cbn; [by rewrite app_nil_r|].
  by rewrite IH, <- app_assoc.
Qed.

Lemma updateFileList_badges files p :
  updateFileList toLocaleString files p =
  Page (editor_raw p) (loadBtn_disabled p) (saveBtn_disabled p)
    (status_textContent p) (status_className p) (status_display p)
    (badge_of toLocaleString <$> files) (timeouts p) (outbox p).
Proof. unfold updateFileList. by rewrite fold_snoc_fmap. Qed.

Lemma loadContent_posted w :
  ∃ content files, posted (_loadContent w).2 = posted w ++ [loadContent content files].
Proof.
  destruct (workspaceFolder w) as [base|] eqn:Hbase.
  - rewrite (loadContent_scan base) by done.
    destruct (scan base (disk w) (ruleFiles w)) as [[found scanned] cs]. by eexists _, _.
  - unfold _loadContent, get_ruleFiles, get_workspaceFolder, mbind, M_bind.
    rewrite Hbase. by eexists _, _.
Qed.

Lemma saveToAllFiles_no_folder_posts content w :
  workspaceFolder w = None → posted (_saveToAllFiles content w).2 = posted w.
Proof.
  intros Hbase. unfold _saveToAllFiles, get_ruleFiles, get_workspaceFolder, mbind, M_bind.
  by rewrite Hbase.
Qed.

Lemma settle_answered w p r m :
  outbox p = [r] →
  posted (onDidReceiveMessage r w).2 = posted w ++ [m] →
  settle toLocaleString w p =
  ((onDidReceiveMessage r w).2, on_message toLocaleString m (take_outbox p)).
Proof.
  intros Hout Hposted. unfold settle. rewrite Hout. cbn [fold_left serve].
  by rewrite Hposted, drop_app_length.
Qed.

Lemma settle_unanswered w p r :
  outbox p = [r] →
  posted (onDidReceiveMessage r w).2 = posted w →
  settle toLocaleString w p = ((onDidReceiveMessage r w).2, take_outbox p).
Proof.
  intros Hout Hposted. unfold settle. rewrite Hout. cbn [fold_left serve].
  by rewrite Hposted, drop_all.
Qed.

(** Pressing Load always comes to an end on the page: the button is
    enabled again, the text area has been given the content the panel
    has posted, whatever was typed in it, so that [editor.value] is that
    content with its line breaks as LF; there is one badge per status
    posted, in the same order, and the status line says whether the
    content is empty. *)
Theorem pressing_load w p :
  outbox p = [] →
  ∃ content files,
    posted (settle toLocaleString w (click_load p)).1 =
    posted w ++ [loadContent content files] ∧
    (settle toLocaleString w (click_load p)).2 =
    Page content false (saveBtn_disabled p)
      (if decide (content = "") then "No existing agent rules found"
       else "Agent rules loaded successfully")
      (if decide (content = "") then "status info" else "status success")
      "block" (badge_of toLocaleString <$> files) (timeouts p ++ [5000]) [] ∧
    editor_value (settle toLocaleString w (click_load p)).2 =
    normalize_newlines false content.
Proof.
  intros Hout. destruct (loadContent_posted w) as (content & files & Hposted).
  exists content, files.
  rewrite (settle_answered w (click_load p) load_request (loadContent content files))
    by (by cbn; rewrite ?Hout).
  split; [done|]. cbn [snd on_message]. rewrite updateFileList_badges.
  by destruct (decide (content = "")).
Qed.

(** Opening the panel does what pressing Load does: the script asks for
    the content as it starts, and the page ends up the same. *)
Theorem opening_is_loading w p :
  outbox p = [] →
  settle toLocaleString w (script_start p) = settle toLocaleString w (click_load p).
Proof.
  intros Hout. destruct (loadContent_posted w) as (content & files & Hposted).
  rewrite (settle_answered w (click_load p) load_request (loadContent content files))
    by (by cbn; rewrite ?Hout).
  rewrite (settle_answered w (script_start p) load_request (loadContent content files))
    by (by cbn; rewrite ?Hout).
  reflexivity.
Qed.

(** Pressing Save without a workspace folder leaves the Save button
    disabled: the panel shows its error and posts nothing, and only a
    [saveResults] message enables the button again.  With a folder the
    button always comes back. *)
Theorem save_button_comes_back_iff w p :
  outbox p = [] →
  saveBtn_disabled (settle toLocaleString w (click_save p)).2 = false ↔
  workspaceFolder w ≠ None.
Proof.
  intros Hout. destruct (workspaceFolder w) as [base|] eqn:Hbase.
  - assert (∃ results, posted (_saveToAllFiles (editor_value p) w).2 =
                       posted w ++ [saveResults results]) as [results Hposted].
    { rewrite (saveToAllFiles_attempts base) by done.
      destruct (attempts base (editor_value p) (ruleFiles w) (disk w)) as [[d1 rs] cs].
      by eexists. }
    rewrite (settle_answered w (click_save p) (save_request (editor_value p))
               (saveResults results)) by (by cbn; rewrite ?Hout).
    split; [done|]. intros _. cbn. by destruct (decide _).
  - rewrite (settle_unanswered w (click_save p) (save_request (editor_value p))).
    + cbn. split; [done|]. intros H. by destruct H.
    + cbn. by rewrite Hout.
    + cbn. by rewrite saveToAllFiles_no_folder_posts.
Qed.

(** The page and the window tell the same story of a save: the status
    line is a success, with the very text of the information message,
    when every result is a success, and an error when the window shows
    its error message.  What is saved is the text of the editor, which
    the save leaves as it is. *)
Theorem page_agrees_with_window base w p :
  workspaceFolder w = Some base →
  outbox p = [] →
  ∃ results,
    (settle toLocaleString w (click_save p)).1 = (_saveToAllFiles (editor_value p) w).2 ∧
    posted (settle toLocaleString w (click_save p)).1 =
    posted w ++ [saveResults results] ∧
    editor_value (settle toLocaleString w (click_save p)).2 = editor_value p ∧
    (Forall (λ r, SaveResult.success r = true) results →
     status_className (settle toLocaleString w (click_save p)).2 = "status success" ∧
     shown (settle toLocaleString w (click_save p)).1 =
     shown w ++
     [InformationMessage (status_textContent (settle toLocaleString w (click_save p)).2)]) ∧
    (¬ Forall (λ r, SaveResult.success r = true) results →
     status_className (settle toLocaleString w (click_save p)).2 = "status error" ∧
     ∃ text, shown (settle toLocaleString w (click_save p)).1 =
             shown w ++ [ErrorMessage text]).
Proof.
  intros Hbase Hout.
  pose proof (saveToAllFiles_attempts base (editor_value p) w Hbase) as Hsave.
  destruct (attempts base (editor_value p) (ruleFiles w) (disk w)) as [[d1 rs] cs].
  exists rs.
  rewrite (settle_answered w (click_save p) (save_request (editor_value p))
             (saveResults rs)) by (cbn; by rewrite ?Hout, ?Hsave).
  cbn [fst snd onDidReceiveMessage]. rewrite Hsave. cbn [snd posted shown post show].
  split_and!; [done|done| | |].
  - cbn. by destruct (decide _).
  - intros Hall. unfold summary, on_message.
    rewrite !decide_True by by apply filter_failed_nil. done.
  - intros Hsome. unfold summary, on_message.
    rewrite !decide_False by (by rewrite filter_failed_nil). split; [done|by eexists].
Qed.

(** A rule file that is there but empty looks like no rules at all: when
    the file that ends the first loop (it exists, its [stat] and its read
    return, its time prints) is empty, the status line of the page
    says that no rules were found, while the badge of that very file
    shows it as existing. *)
Theorem empty_rule_file_looks_missing base w p pre first post lastModified :
  workspaceFolder w = Some base →
  ruleFiles w = pre ++ first :: post →
  (∀ q, q ∈ pre → winner (disk w) (path_join base q) = None) →
  winner (disk w) (path_join base first) = Some (lastModified, "") →
  outbox p = [] →
  status_textContent (settle toLocaleString w (click_load p)).2 =
  "No existing agent rules found" ∧
  editor_value (settle toLocaleString w (click_load p)).2 = "" ∧
  className <$> fileList (settle toLocaleString w (click_load p)).2 !! length pre =
  Some "file-status file-exists".
Proof.
  intros Hbase Hfiles Hpre Hfirst Hout.
  pose proof (loadContent_scan base w Hbase) as Hload.
  rewrite Hfiles in Hload at 1.
  rewrite (scan_stops base (disk w) pre first post lastModified "" Hpre Hfirst) in Hload.
  rewrite (settle_answered w (click_load p) load_request _)
    by (cbn; by rewrite ?Hout, ?Hload).
  cbn [snd on_message]. rewrite updateFileList_badges.
  rewrite decide_True by done. cbn. split_and!; [done..|].
  rewrite list_lookup_fmap.
  rewrite lookup_app_l by (rewrite length_app, length_fmap; cbn; lia).
  rewrite lookup_app_r by (by rewrite length_fmap).
  by rewrite length_fmap, Nat.sub_diag.
Qed.

Section PagesLaws.

Context `{!NodeLaws FS} `{!DateLaws FS}.

Lemma first_saved_is_scanned base content first rest d stats text :
  let d' := (attempts base content (first :: rest) d).1.1 in
  (attempt base content first d).1.2 = None →
  fs_statSync d' (path_join base first) = inr stats →
  fs_readFileSync d' (path_join base first) = inr text →
  ∃ lastModified, winner d' (path_join base first) = Some (lastModified, content).
Proof.
  cbn [attempts]. pose proof (attempt_done base content first d) as Hdone.
  pose proof (attempt_dated base content first d) as Hfresh.
  destruct (attempt base content first d) as [[d1 r] cs].
  pose proof (attempts_keep base content rest d1 (path_join base first)) as Hkeep.
  pose proof (attempts_keep_date base content rest d1 (path_join base first)) as Hdated.
  destruct (attempts base content rest d1) as [[d2 rs] cs'].
  cbn [fst snd] in *. intros Hr Hstat Hread. specialize (Hkeep (Hdone Hr)).
  destruct (Hdated (Hfresh Hr) stats Hstat) as [lastModified Hdate].
  pose proof (read_content _ _ _ Hread) as Htext.
  rewrite Hkeep in Htext. injection Htext as <-. exists lastModified.
  unfold winner. by rewrite (content_exists _ _ _ Hkeep), Hstat, Hread, Hdate.
Qed.

(** Pressing Save and then Load leaves the text of the editor as it was,
    when the save of the first path succeeded and that file can be read
    back. *)
Theorem save_then_load_keeps_editor base w p first rest results stats text :
  workspaceFolder w = Some base →
  ruleFiles w = first :: rest →
  outbox p = [] →
  let saved := settle toLocaleString w (click_save p) in
  posted saved.1 = posted w ++ [saveResults results] →
  SaveResult.success <$> results !! 0 = Some true →
  fs_statSync (disk saved.1) (path_join base first) = inr stats →
  fs_readFileSync (disk saved.1) (path_join base first) = inr text →
  editor_value (settle toLocaleString saved.1 (click_load saved.2)).2 = editor_value p.
Proof.
  intros Hbase Hfiles Hout saved. subst saved.
  pose proof (saveToAllFiles_attempts base (editor_value p) w Hbase) as Hsave.
  pose proof (first_saved_is_scanned base (editor_value p) first rest (disk w) stats text)
    as Hwin.
  rewrite Hfiles in Hsave. cbn [attempts] in Hsave, Hwin.
  destruct (attempt base (editor_value p) first (disk w)) as [[d1 r] cs].
  destruct (attempts base (editor_value p) rest d1) as [[d2 rs] cs'].
  rewrite (settle_answered w (click_save p) (save_request (editor_value p))
             (saveResults (result_of first r :: rs)))
    by (cbn; by rewrite ?Hout, ?Hsave).
  cbn [fst snd onDidReceiveMessage]. rewrite Hsave.
  cbn [snd posted disk post show advance].
  intros [= <-]%app_inv_head Hr Hstat Hread. cbn in Hr. injection Hr as Hr.
  apply result_of_success in Hr. cbn in Hwin.
  destruct (Hwin Hr Hstat Hread) as [lastModified Hwinner]. clear Hwin.
  set (w1 := post _ _). set (p1 := on_message _ _ _).
  assert (workspaceFolder w1 = Some base) as Hbase1 by done.
  pose proof (loadContent_scan base w1 Hbase1) as Hload.
  change (ruleFiles w1) with (ruleFiles w) in Hload. rewrite Hfiles in Hload.
  rewrite scan_cons in Hload. change (disk w1) with d2 in Hload.
  rewrite Hwinner in Hload.
  assert (outbox p1 = []) as Hout1.
  { subst p1. cbn. by destruct (decide _). }
  cbn zeta in Hload. cbn [default] in Hload. clearbody w1 p1.
  erewrite (settle_answered w1 (click_load p1) load_request);
    [|cbn; by rewrite Hout1|cbn [onDidReceiveMessage]; by rewrite Hload].
  cbn [snd on_message]. rewrite updateFileList_badges.
  destruct (decide _); cbn; apply normalize_newlines_again.
Qed.

End PagesLaws.

End Pages.

(** ** The further theorems at work *)

Lemma addRuleFile_keeps_NoDup_witness :
  NoDup (setting_ruleFiles (addRuleFile (Some "GEMINI.md") None Samples.configured).2).
Proof.
  apply addRuleFile_keeps_NoDup. apply (bool_decide_unpack _). vm_compute. exact I.
Defined.

Lemma addRuleFile_adds_last_witness :
  "GEMINI.md" ∈ setting_ruleFiles (addRuleFile (Some "GEMINI.md") None Samples.configured).2 ∧
  (MemFs.default_ruleFiles
   `prefix_of` setting_ruleFiles (addRuleFile (Some "GEMINI.md") None Samples.configured).2) ∧
  (length (setting_ruleFiles (addRuleFile (Some "GEMINI.md") None Samples.configured).2)
   ≤ 7)%nat.
Proof.
  apply (addRuleFile_adds_last (Some "GEMINI.md") None Samples.configured "GEMINI.md");
    reflexivity.
Defined.

Lemma addRuleFile_again_witness :
  addRuleFile (Some "GEMINI.md") (Some NotAnError)
    (addRuleFile (Some "GEMINI.md") None Samples.configured).2 =
  (Normal (),
   show_toast (WarningToast "GEMINI.md is already in agent rule files")
     (addRuleFile (Some "GEMINI.md") None Samples.configured).2).
Proof.
  apply (addRuleFile_again (Some "GEMINI.md") None (Some NotAnError) Samples.configured
           "GEMINI.md"); reflexivity.
Defined.

(** From a list that holds [Claude.md] twice, both go. *)
Lemma removeRuleFile_removes_witness :
  setting_ruleFiles
    (removeRuleFile (λ _, Some "Claude.md") None
       (Settings ["AGENTS.md"; "Claude.md"; ".windsurfrules"; "Claude.md"] [])).2
  = ["AGENTS.md"; ".windsurfrules"] ∧
  "Claude.md" ∉
  setting_ruleFiles
    (removeRuleFile (λ _, Some "Claude.md") None
       (Settings ["AGENTS.md"; "Claude.md"; ".windsurfrules"; "Claude.md"] [])).2.
Proof.
  split; [reflexivity|].
  apply (removeRuleFile_removes (λ _, Some "Claude.md") None
           (Settings ["AGENTS.md"; "Claude.md"; ".windsurfrules"; "Claude.md"] [])
           "Claude.md"); reflexivity.
Defined.

Lemma add_then_remove_witness :
  setting_ruleFiles
    (removeRuleFile (λ _, Some "GEMINI.md") None
       (addRuleFile (Some "GEMINI.md") None Samples.configured).2).2
  = MemFs.default_ruleFiles.
Proof.
  apply (add_then_remove (λ _, Some "GEMINI.md") "GEMINI.md" Samples.configured).
  - discriminate.
  - apply (bool_decide_unpack _). vm_compute. exact I.
  - reflexivity.
Defined.

Lemma remove_then_add_witness :
  ∃ before after,
    MemFs.default_ruleFiles = before ++ "AGENTS.md" :: after ∧
    setting_ruleFiles
      (addRuleFile (Some "AGENTS.md") None
         (removeRuleFile (λ _, Some "AGENTS.md") None Samples.configured).2).2
    = before ++ after ++ ["AGENTS.md"].
Proof.
  apply (remove_then_add (λ _, Some "AGENTS.md") "AGENTS.md" Samples.configured).
  - discriminate.
  - apply (bool_decide_unpack _). vm_compute. exact I.
  - apply (bool_decide_unpack _). vm_compute. exact I.
  - reflexivity.
Defined.

Lemma saveToAllFiles_in_two_parts_witness :
  ∃ w1 w2 r1 r2,
    w1 = (_saveToAllFiles "rules"
            (World (Some "/ws") ["AGENTS.md"; "Claude.md"] (disk MemFs.fresh) [] [] [])).2 ∧
    w2 = (_saveToAllFiles "rules"
            (World (Some "/ws")
               [".cursor/rules/project-rules.mdc"; ".github/copilot-instructions.md";
                ".roo/rules/rules.md"; ".windsurfrules"] (disk w1) [] [] [])).2 ∧
    posted w1 = [saveResults r1] ∧
    posted w2 = [saveResults r2] ∧
    posted (_saveToAllFiles "rules" MemFs.fresh).2 =
    posted MemFs.fresh ++ [saveResults (r1 ++ r2)] ∧
    calls (_saveToAllFiles "rules" MemFs.fresh).2 =
    calls MemFs.fresh ++ calls w1 ++ calls w2 ∧
    disk (_saveToAllFiles "rules" MemFs.fresh).2 = disk w2.
Proof.
  apply (saveToAllFiles_in_two_parts "/ws" "rules" ["AGENTS.md"; "Claude.md"]
           [".cursor/rules/project-rules.mdc"; ".github/copilot-instructions.md";
            ".roo/rules/rules.md"; ".windsurfrules"] MemFs.fresh); reflexivity.
Defined.

Lemma saveToAllFiles_summary_witness :
  shown (_saveToAllFiles "rules" MemFs.fresh).2 =
  [InformationMessage "Successfully saved to 6 file(s)"].
Proof.
  destruct (saveToAllFiles_summary "/ws" "rules" MemFs.fresh eq_refl)
    as (results & Hposted & Hall & _).
  apply Hall. vm_compute in Hposted. injection Hposted as <-. repeat constructor.
Defined.

(** The first path is missing and the list has two paths: the names of
    the three statuses are not the list, and neither side holds. *)
Lemma loadContent_one_status_each_iff_witness :
  FileStatus.file <$>
    [FileStatus.mk "AGENTS.md" false None;
     FileStatus.mk "Claude.md" true (Some "2025-11-03T01:03:21.000Z");
     FileStatus.mk "Claude.md" true (Some "2025-11-03T01:03:21.000Z")]
  = ruleFiles MemFs.second_wins ↔
  (length (ruleFiles MemFs.second_wins) ≤ 1)%nat ∨
  ∃ first rest, ruleFiles MemFs.second_wins = first :: rest ∧
                winner (disk MemFs.second_wins) (path_join "/ws" first) ≠ None.
Proof.
  apply (loadContent_one_status_each_iff "/ws" MemFs.second_wins "rules").
  - reflexivity.
  - vm_compute. reflexivity.
Defined.

(** [AGENTS.md] is written and stays written although [Claude.md]
    fails. *)
Lemma saved_file_survives_witness :
  fs_existsSync (disk (_saveToAllFiles "new" MemFs.write_only).2)
    (path_join "/ws" "AGENTS.md") = true ∧
  fs_fileContent (disk (_saveToAllFiles "new" MemFs.write_only).2)
    (path_join "/ws" "AGENTS.md") = Some "new".
Proof.
  eapply (saved_file_survives "/ws" "new" MemFs.write_only _ 0 "AGENTS.md").
  - reflexivity.
  - vm_compute. reflexivity.
  - reflexivity.
  - reflexivity.
Defined.

Lemma pressing_load_witness :
  ∃ content files,
    posted (settle Samples.locale MemFs.second_wins (click_load Samples.typed)).1 =
    posted MemFs.second_wins ++ [loadContent content files] ∧
    (settle Samples.locale MemFs.second_wins (click_load Samples.typed)).2 =
    Page content false false
      (if decide (content = "") then "No existing agent rules found"
       else "Agent rules loaded successfully")
      (if decide (content = "") then "status info" else "status success")
      "block" (badge_of Samples.locale <$> files) [5000] [] ∧
    editor_value
      (settle Samples.locale MemFs.second_wins (click_load Samples.typed)).2 =
    normalize_newlines false content.
Proof. apply (pressing_load Samples.locale MemFs.second_wins Samples.typed). reflexivity. Defined.

Lemma opening_is_loading_witness :
  settle Samples.locale MemFs.second_wins (script_start blank_page) =
  settle Samples.locale MemFs.second_wins (click_load blank_page).
Proof. apply opening_is_loading. reflexivity. Defined.

(** Without a folder the Save button stays disabled; with one it comes
    back. *)
Lemma save_button_comes_back_iff_witness :
  saveBtn_disabled (settle Samples.locale MemFs.no_folder (click_save Samples.typed)).2
  ≠ false ∧
  saveBtn_disabled (settle Samples.locale MemFs.fresh (click_save Samples.typed)).2 = false.
Proof.
  split.
  - intros Hback.
    by apply (save_button_comes_back_iff Samples.locale MemFs.no_folder Samples.typed
                eq_refl) in Hback.
  - by apply (save_button_comes_back_iff Samples.locale MemFs.fresh Samples.typed eq_refl).
Defined.

Lemma page_agrees_with_window_witness :
  ∃ results,
    (settle Samples.locale MemFs.fresh (click_save Samples.typed)).1 =
    (_saveToAllFiles "rules" MemFs.fresh).2 ∧
    posted (settle Samples.locale MemFs.fresh (click_save Samples.typed)).1 =
    [saveResults results] ∧
    status_textContent (settle Samples.locale MemFs.fresh (click_save Samples.typed)).2 =
    "Successfully saved to 6 file(s)".
Proof.
  destruct (page_agrees_with_window Samples.locale "/ws" MemFs.fresh Samples.typed
              eq_refl eq_refl) as (results & Hworld & Hposted & _ & _ & _).
  exists results. split; [exact Hworld|]. split; [exact Hposted|].
  vm_compute. reflexivity.
Defined.

Lemma empty_rule_file_looks_missing_witness :
  status_textContent (settle Samples.locale Samples.empty_agents (click_load blank_page)).2 =
  "No existing agent rules found" ∧
  editor_value (settle Samples.locale Samples.empty_agents (click_load blank_page)).2 = "" ∧
  className <$>
    fileList (settle Samples.locale Samples.empty_agents (click_load blank_page)).2 !! 0 =
  Some "file-status file-exists".
Proof.
  apply (empty_rule_file_looks_missing Samples.locale "/ws" Samples.empty_agents blank_page
           [] "AGENTS.md" ["Claude.md"] "2025-11-03T01:03:22.000Z").
  - reflexivity.
  - reflexivity.
  - intros q Hq. by apply elem_of_nil in Hq.
  - vm_compute. reflexivity.
  - reflexivity.
Defined.

Lemma save_then_load_keeps_editor_witness :
  editor_value
    (settle Samples.locale
       (settle Samples.locale MemFs.fresh (click_save Samples.typed)).1
       (click_load (settle Samples.locale MemFs.fresh (click_save Samples.typed)).2)).2
  = "rules".
Proof.
  eapply (save_then_load_keeps_editor Samples.locale "/ws" MemFs.fresh Samples.typed
            "AGENTS.md").
  - reflexivity.
  - reflexivity.
  - reflexivity.
  - vm_compute. reflexivity.
  - reflexivity.
  - vm_compute. reflexivity.
  - vm_compute. reflexivity.
Defined.
